(** * A model of [nlp_api.py]: model provisioning and request handling

    The Python module keeps two process-wide globals ([nlp_model],
    [model_loaded]), talks to the outside world through [os], [tempfile],
    [boto3] and [spacy], and signals failure with exceptions.  The embedding
    below keeps that shape: a small monad threads the two globals, returns
    either a value or a raised exception, and records every external call
    (and every [print]) in a trace, so that "no remote listing happened" is
    a statement about the trace.  The answers of the outside world for one
    invocation are collected in a [World] record. *)

From Stdlib Require Import ZArith Floats Lia.
From stdpp Require Import base option list strings gmap.
From Stdlib Require Import Ascii.

Local Open Scope string_scope.
Set Warnings "-register-all".

(** ** Python values and exceptions *)

(** The exceptions this module can see.  All of them derive from Python's
    [Exception], so every one is caught by [except Exception]. *)
Inductive exn :=
| Exception (msg : string)          (* raise Exception(msg) in this module *)
| TypeError (msg : string)          (* raised by the interpreter *)
| KeyError (key : string)           (* dict lookup of an absent key *)
| ExternalError (cls msg : string). (* raised inside os, boto3, spacy, json *)

(** [str(e)] *)
Definition str_exn (e : exn) : string :=
  match e with
  | Exception msg => msg
  | TypeError msg => msg
  | KeyError key => "'" +:+ key +:+ "'"
  | ExternalError _ msg => msg
  end.

Inductive result (A : Type) :=
| Ok (a : A)
| Raise (e : exn).
Arguments Ok {A} a.
Arguments Raise {A} e.

(** The values an event or a parsed JSON body is made of.  A [dict] keeps
    its insertion order, as Python's does; a lookup takes the first entry
    under the key. *)
Inductive pyval :=
| PNone
| PBool (b : bool)
| PInt (n : Z)
| PFloat (x : float)
| PStr (s : string)
| PList (l : list pyval)
| PDict (d : list (string * pyval)).

Definition type_name (v : pyval) : string :=
  match v with
  | PNone => "NoneType"
  | PBool _ => "bool"
  | PInt _ => "int"
  | PFloat _ => "float"
  | PStr _ => "str"
  | PList _ => "list"
  | PDict _ => "dict"
  end.

Fixpoint dict_get (k : string) (d : list (string * pyval)) : option pyval :=
  match d with
  | [] => None
  | (k', v) :: d' => if String.eqb k' k then Some v else dict_get k d'
  end.

(** ** String operations used by the module *)

(** [s.startswith(p)] *)
Definition startswith (s p : string) : bool := String.prefix p s.

(** [s.endswith(suf)] *)
Definition endswith (s suf : string) : bool :=
  let n := String.length s in
  let m := String.length suf in
  if (m <=? n)%nat then String.eqb (String.substring (n - m) m s) suf else false.

(** [sub in s] for strings *)
Fixpoint str_contains (sub s : string) : bool :=
  String.prefix sub s ||
  match s with
  | EmptyString => false
  | String _ s' => str_contains sub s'
  end.

(** [s.replace(pat, '')] for a non-empty [pat]: occurrences are removed
    left to right, without overlap.  [skip] counts the characters of the
    occurrence being dropped. *)
Fixpoint remove_all_from (pat s : string) (skip : nat) : string :=
  match s with
  | EmptyString => EmptyString
  | String c s' =>
      match skip with
      | S k => remove_all_from pat s' k
      | O => if String.prefix pat s
             then remove_all_from pat s' (String.length pat - 1)
             else String c (remove_all_from pat s' 0)
      end
  end.

Definition str_remove (s pat : string) : string := remove_all_from pat s 0.

(** [posixpath.join(a, b)] *)
Definition os_path_join (a b : string) : string :=
  if startswith b "/" then b
  else if String.eqb a "" || endswith a "/" then a +:+ b
  else a +:+ "/" +:+ b.

(** The part of [p] up to and including its last ["/"] ([p[:p.rfind('/')+1]]). *)
Fixpoint head_upto_slash (p : string) : string :=
  match p with
  | EmptyString => EmptyString
  | String c p' =>
      if str_contains "/" p then String c (head_upto_slash p') else EmptyString
  end.

Definition all_slashes (s : string) : bool :=
  forallb (fun c => Ascii.eqb c "/"%char) (String.list_ascii_of_string s).

Fixpoint drop_leading_slashes (l : list ascii) : list ascii :=
  match l with
  | c :: l' => if Ascii.eqb c "/"%char then drop_leading_slashes l' else l
  | [] => []
  end.

(** [s.rstrip('/')] *)
Definition rstrip_slash (s : string) : string :=
  String.string_of_list_ascii
    (rev (drop_leading_slashes (rev (String.list_ascii_of_string s)))).

(** [posixpath.dirname(p)] *)
Definition os_path_dirname (p : string) : string :=
  let head := head_upto_slash p in
  if negb (String.eqb head "") && negb (all_slashes head)
  then rstrip_slash head
  else head.

(** ** The loaded classifier *)

(** What [nlp_model(text)] returns: the module reads only [doc.cats], a dict
    from label to score. *)
Record Doc := { cats : gmap string float }.

(** A loaded spaCy pipeline, seen through the one thing the module does with
    it: calling it on a text, which returns a [Doc] or raises. *)
Record Language := { pipe : pyval → result Doc }.

(** ** Process-wide state and the outside world *)

(** The two module-level globals. *)
Record LoadState := {
  nlp_model : option Language;
  model_loaded : bool;
}.

(** The state of a fresh process (lines 17-18). *)
Definition initial : LoadState :=
  {| nlp_model := None; model_loaded := false |}.

(** External calls and output lines, in the order they happen. *)
Inductive event :=
| Print (line : string)
| OsPathExists (path : string)
| Boto3Client
| Mkdtemp
| OsMakedirs (path : string)
| ListObjectsV2 (bucket prefix : string)
| DownloadFile (bucket key filename : string)
| SpacyLoad (path : string)
| ModelCall (text : pyval).

(** What the outside world answers during one invocation. *)
Record World := {
  os_path_exists : string → bool;
  boto3_client : result unit;
  tempfile_mkdtemp : result string;
  os_makedirs : string → result unit;
  (** [None] stands for a response without a ['Contents'] entry, [Some ks]
      for one whose entries have the keys [ks]. *)
  list_objects_v2 : string → string → result (option (list string));
  download_file : string → string → string → result unit;
  spacy_load : string → result Language;
}.

(** ** The monad: globals, exceptions and a trace *)

Definition M (A : Type) : Type :=
  LoadState → result A * LoadState * list event.

#[global] Instance M_ret : MRet M := λ A a st, (Ok a, st, []).

#[global] Instance M_bind : MBind M := λ A B f m st,
  match m st with
  | (Ok a, st1, t1) => let '(r, st2, t2) := f a st1 in (r, st2, (t1 ++ t2)%list)
  | (Raise e, st1, t1) => (Raise e, st1, t1)
  end.

(** [raise e] *)
Definition raise {A} (e : exn) : M A := λ st, (Raise e, st, []).

(** A pure step that may raise. *)
Definition lift {A} (r : result A) : M A := λ st, (r, st, []).

(** An external call: it is recorded, and returns or raises what the world
    answers. *)
Definition extern {A} (ev : event) (r : result A) : M A := λ st, (r, st, [ev]).

Definition print (line : string) : M unit := extern (Print line) (Ok tt).

(** [try: m  except Exception as e: h e] *)
Definition try_except {A} (m : M A) (h : exn → M A) : M A := λ st,
  match m st with
  | (Ok a, st1, t1) => (Ok a, st1, t1)
  | (Raise e, st1, t1) => let '(r, st2, t2) := h e st1 in (r, st2, (t1 ++ t2)%list)
  end.

Definition get_nlp_model : M (option Language) := λ st, (Ok (nlp_model st), st, []).
Definition get_model_loaded : M bool := λ st, (Ok (model_loaded st), st, []).
Definition set_nlp_model (m : option Language) : M unit := λ st,
  (Ok tt, {| nlp_model := m; model_loaded := model_loaded st |}, []).
Definition set_model_loaded (b : bool) : M unit := λ st,
  (Ok tt, {| nlp_model := nlp_model st; model_loaded := b |}, []).

(** [x is not None] *)
Definition is_not_None {A} (x : option A) : bool :=
  match x with Some _ => true | None => false end.

(** [for x in l: body x] *)
Fixpoint for_each {A} (l : list A) (body : A → M unit) : M unit :=
  match l with
  | [] => mret tt
  | x :: l' => body x;; for_each l' body
  end.

(** Projections of a run. *)
Definition outcome {A} (r : result A * LoadState * list event) : result A := r.1.1.
Definition final {A} (r : result A * LoadState * list event) : LoadState := r.1.2.
Definition trace {A} (r : result A * LoadState * list event) : list event := r.2.

(** ** The Model Provisioner *)

Section Provisioner.
Variable w : World.

(** The body of the loop over [response['Contents']] (lines 49-59). *)
Definition download_object (bucket_name model_prefix model_path key : string)
  : M unit :=
  if negb (endswith key "/") then
    let relative_path := str_remove key model_prefix in
    let local_file_path := os_path_join model_path relative_path in
    extern (OsMakedirs (os_path_dirname local_file_path))
           (os_makedirs w (os_path_dirname local_file_path));;
    extern (DownloadFile bucket_name key local_file_path)
           (download_file w bucket_name key local_file_path)
  else mret tt.

(** [load_model_from_s3] (lines 21-67). *)
Definition load_model_from_s3 : M Language :=
  extern Boto3Client (boto3_client w);;
  let bucket_name := "toxic-chat-classifier" in
  let model_prefix := "toxic_chat_model_full/" in
  temp_dir ← extern Mkdtemp (tempfile_mkdtemp w);
  let model_path := os_path_join temp_dir "toxic_chat_model_full" in
  extern (OsMakedirs model_path) (os_makedirs w model_path);;
  try_except
    (response ← extern (ListObjectsV2 bucket_name model_prefix)
                       (list_objects_v2 w bucket_name model_prefix);
     match response with
     | None => raise (Exception ("No files found in " +:+ model_prefix))
     | Some contents =>
         for_each contents (download_object bucket_name model_prefix model_path);;
         nlp ← extern (SpacyLoad model_path) (spacy_load w model_path);
         mret nlp
     end)
    (λ e, print ("Error loading model: " +:+ str_exn e);; raise e).

(** [load_model] (lines 70-93). *)
Definition load_model : M (option Language) :=
  loaded ← get_model_loaded;
  cached ← get_nlp_model;
  if loaded && is_not_None cached then
    print "Using cached model";;
    mret cached
  else
    try_except
      (let model_path := "/tmp/toxic_chat_model_full" in
       found ← extern (OsPathExists (os_path_join model_path "config.cfg"))
                      (Ok (os_path_exists w (os_path_join model_path "config.cfg")));
       (if negb found then
          print "Model not found locally, downloading from S3...";;
          nlp ← load_model_from_s3;
          set_nlp_model (Some nlp)
        else
          print "Found existing model in /tmp");;
       set_model_loaded true;;
       print "Model loaded successfully!";;
       get_nlp_model)
      (λ e, print ("Error loading model: " +:+ str_exn e);; raise e).
End Provisioner.

(** ** Operations of the interpreter used by the handler *)

(** [k in v] for a string [k]. *)
Definition py_contains (k : string) (v : pyval) : result bool :=
  match v with
  | PDict d => Ok (is_not_None (dict_get k d))
  | PList l => Ok (existsb (λ x, match x with PStr s => String.eqb s k | _ => false end) l)
  | PStr s => Ok (str_contains k s)
  | _ => Raise (TypeError ("argument of type '" +:+ type_name v +:+ "' is not iterable"))
  end.

(** [v[k]] for a string [k]. *)
Definition py_getitem (v : pyval) (k : string) : result pyval :=
  match v with
  | PDict d => match dict_get k d with Some x => Ok x | None => Raise (KeyError k) end
  | PList _ => Raise (TypeError "list indices must be integers or slices, not str")
  | PStr _ => Raise (TypeError "string indices must be integers, not 'str'")
  | _ => Raise (TypeError ("'" +:+ type_name v +:+ "' object is not subscriptable"))
  end.

(** [doc.cats[label]] *)
Definition cats_getitem (doc : Doc) (label : string) : result float :=
  match cats doc !! label with
  | Some x => Ok x
  | None => Raise (KeyError label)
  end.

(** [max(a, b)] on floats: the second argument wins only when it compares
    greater than the first. *)
Definition py_max (a b : float) : float :=
  if (a <? b)%float then b else a.

(** ** The Request Handler *)

Section Handler.
(** [json.loads] on a string and [json.dumps], from the standard library. *)
Variable json_loads : string → result pyval.
Variable json_dumps : pyval → string.
Variable w : World.

(** [json.loads(v)]: anything but a string is a [TypeError]. *)
Definition py_json_loads (v : pyval) : result pyval :=
  match v with
  | PStr s => json_loads s
  | _ => Raise (TypeError ("the JSON object must be str, bytes or bytearray, not "
                           +:+ type_name v))
  end.

(** [predict_toxicity] (lines 158-182). *)
Definition predict_toxicity (text : pyval) : M pyval :=
  model ← get_nlp_model;
  match model with
  | None => raise (Exception "Model not loaded")
  | Some nlp =>
      try_except
        (doc ← extern (ModelCall text) (pipe nlp text);
         toxic_score ← lift (cats_getitem doc "TOXIC");
         not_toxic_score ← lift (cats_getitem doc "NOT_TOXIC");
         let is_toxic := (0.5 <=? toxic_score)%float in
         mret (PDict [("text", text);
                      ("is_toxic", PBool is_toxic);
                      ("toxic_score", PFloat toxic_score);
                      ("not_toxic_score", PFloat not_toxic_score);
                      ("confidence", PFloat (py_max toxic_score not_toxic_score))]))
        (λ e, print ("Error in prediction: " +:+ str_exn e);; raise e)
  end.

(** [lambda_handler] (lines 96-153). *)
Definition lambda_handler (event context : pyval) : M pyval :=
  try_except
    (has_body ← lift (py_contains "body" event);
     body ← (if has_body : bool
             then raw ← lift (py_getitem event "body"); lift (py_json_loads raw)
             else mret event);
     has_text ← lift (py_contains "text" body);
     if negb has_text then
       mret (PDict [("statusCode", PInt 400);
                    ("headers", PDict [("Content-Type", PStr "application/json");
                                       ("Access-Control-Allow-Origin", PStr "*")]);
                    ("body", PStr (json_dumps
                       (PDict [("error", PStr "Missing required field: text")])))])
     else
       text ← lift (py_getitem body "text");
       load_model w;;
       result ← predict_toxicity text;
       mret (PDict [("statusCode", PInt 200);
                    ("headers", PDict [("Content-Type", PStr "application/json");
                                       ("Access-Control-Allow-Origin", PStr "*")]);
                    ("body", PStr (json_dumps result))]))
    (λ e,
       print ("Lambda error: " +:+ str_exn e);;
       mret (PDict [("statusCode", PInt 500);
                    ("headers", PDict [("Content-Type", PStr "application/json");
                                       ("Access-Control-Allow-Origin", PStr "*")]);
                    ("body", PStr (json_dumps
                       (PDict [("error", PStr (str_exn e));
                               ("message", PStr "Internal server error")])))])).
End Handler.

(** ** Notions the statements are written with *)

(** The directory the fetch fills and loads from (line 38), for the
    directory [temp_dir] that [mkdtemp] created. *)
Definition download_dir (temp_dir : string) : string :=
  os_path_join temp_dir "toxic_chat_model_full".

(** The directory [load_model] looks into (line 79). *)
Definition probe_dir : string := "/tmp/toxic_chat_model_full".

(** [tempfile.mkdtemp()] creates and returns a new directory [dir/tmpXXXXXXXX]:
    [dir] is the system's temporary directory and the eight characters
    [name] are drawn at random. *)
Definition mkdtemp_path (dir name : string) : string :=
  os_path_join dir ("tmp" +:+ name).

(** The file [load_model] probes (line 80). *)
Definition marker : string := os_path_join probe_dir "config.cfg".

(** The test of line 73. *)
Definition cache_hit (st : LoadState) : bool :=
  model_loaded st && is_not_None (nlp_model st).

(** The Load State invariant of the data model: the flag is set exactly
    when a handle is held. *)
Definition load_state_inv (st : LoadState) : Prop :=
  model_loaded st = true ↔ nlp_model st ≠ None.

(** Successive invocations in one process: each starts from the globals the
    previous one left, and meets a world of its own. *)
Fixpoint load_model_runs (ws : list World) (st : LoadState)
  : list (result (option Language) * LoadState * list event) :=
  match ws with
  | [] => []
  | w :: ws' => load_model w st :: load_model_runs ws' (final (load_model w st))
  end.

(** The bucket and prefix of lines 33-34, and the local name of an object
    (lines 52-53). *)
Definition s3_bucket : string := "toxic-chat-classifier".
Definition s3_prefix : string := "toxic_chat_model_full/".
Definition local_file_path (model_path key : string) : string :=
  os_path_join model_path (str_remove key s3_prefix).

(** Everything before the listing went well, and [mkdtemp] answered
    [temp_dir]. *)
Definition fetch_ready (w : World) (temp_dir : string) : Prop :=
  boto3_client w = Ok tt ∧
  tempfile_mkdtemp w = Ok temp_dir ∧
  os_makedirs w (download_dir temp_dir) = Ok tt.

(** The loop passes over [key]: a folder entry, or a file whose directory
    is created and whose download returns. *)
Definition object_fetched (w : World) (model_path key : string) : Prop :=
  endswith key "/" = true ∨
  (os_makedirs w (os_path_dirname (local_file_path model_path key)) = Ok tt ∧
   download_file w s3_bucket key (local_file_path model_path key) = Ok tt).

(** The four ways provisioning fails once the fetch has started. *)
Inductive provisioning_failure (w : World) (model_path : string) : exn → Prop :=
| listing_raises e :
    list_objects_v2 w s3_bucket s3_prefix = Raise e →
    provisioning_failure w model_path e
| no_objects_found :
    list_objects_v2 w s3_bucket s3_prefix = Ok None →
    provisioning_failure w model_path
      (Exception "No files found in toxic_chat_model_full/")
| download_raises e before key after :
    list_objects_v2 w s3_bucket s3_prefix = Ok (Some (before ++ key :: after)%list) →
    Forall (object_fetched w model_path) before →
    endswith key "/" = false →
    os_makedirs w (os_path_dirname (local_file_path model_path key)) = Ok tt →
    download_file w s3_bucket key (local_file_path model_path key) = Raise e →
    provisioning_failure w model_path e
| model_load_raises e keys :
    list_objects_v2 w s3_bucket s3_prefix = Ok (Some keys) →
    Forall (object_fetched w model_path) keys →
    spacy_load w model_path = Raise e →
    provisioning_failure w model_path e.

(** The body lines 101-107 compute, or the exception they raise. *)
Definition request_body (json_loads : string → result pyval) (event : pyval)
  : result pyval :=
  match py_contains "body" event with
  | Ok true =>
      match py_getitem event "body" with
      | Ok raw => py_json_loads json_loads raw
      | Raise e => Raise e
      end
  | Ok false => Ok event
  | Raise e => Raise e
  end.

(** The three response dicts of the handler. *)
Definition response (status : Z) (body : string) : pyval :=
  PDict [("statusCode", PInt status);
         ("headers", PDict [("Content-Type", PStr "application/json");
                            ("Access-Control-Allow-Origin", PStr "*")]);
         ("body", PStr body)].

Definition missing_text_body : pyval :=
  PDict [("error", PStr "Missing required field: text")].

Definition server_error_body (e : exn) : pyval :=
  PDict [("error", PStr (str_exn e)); ("message", PStr "Internal server error")].

(** The dict [predict_toxicity] returns for the scores [toxic_score] and
    [not_toxic_score] (lines 171-179). *)
Definition prediction (text : pyval) (toxic_score not_toxic_score : float) : pyval :=
  PDict [("text", text);
         ("is_toxic", PBool (0.5 <=? toxic_score)%float);
         ("toxic_score", PFloat toxic_score);
         ("not_toxic_score", PFloat not_toxic_score);
         ("confidence", PFloat (py_max toxic_score not_toxic_score))].

(** What the [except] clause of the handler returns for [e], after a run
    that reached state [st] with trace [t]. *)
Definition server_error (json_dumps : pyval → string)
    (e : exn) (st : LoadState) (t : list event)
  : result pyval * LoadState * list event :=
  (Ok (response 500 (json_dumps (server_error_body e))), st,
   (t ++ [Print ("Lambda error: " +:+ str_exn e)])%list).

Definition is_model_call (ev : event) : bool :=
  match ev with ModelCall _ => true | _ => false end.

(** ** Notions for the further properties *)

(** A trace, for statements that also speak of the handler's [event]. *)
Definition events : Type := list event.

(** The keys handed to [download_file] in a trace, in order. *)
Fixpoint downloaded_keys (t : list event) : list string :=
  match t with
  | [] => []
  | DownloadFile _ key _ :: t' => key :: downloaded_keys t'
  | _ :: t' => downloaded_keys t'
  end.

(** The paths handed to [spacy.load] in a trace, in order. *)
Fixpoint loaded_paths (t : list event) : list string :=
  match t with
  | [] => []
  | SpacyLoad path :: t' => path :: loaded_paths t'
  | _ :: t' => loaded_paths t'
  end.

(** The test of line 50. *)
Definition is_file_key (key : string) : bool := negb (endswith key "/").

(** A call into [os], [tempfile], [boto3] or [spacy], as opposed to a
    printed line or a call of the loaded model. *)
Definition is_provisioning_call (ev : event) : bool :=
  match ev with
  | Print _ | ModelCall _ => false
  | _ => true
  end.

(** A handle is held only with the flag set. *)
Definition handle_flagged (st : LoadState) : bool :=
  implb (is_not_None (nlp_model st)) (model_loaded st).

(** The text the handler extracts from an event (lines 101-121), if it gets
    that far. *)
Definition request_text (json_loads : string → result pyval) (event : pyval)
  : option pyval :=
  match request_body json_loads event with
  | Ok body =>
      match py_contains "text" body with
      | Ok true =>
          match py_getitem body "text" with
          | Ok text => Some text
          | Raise _ => None
          end
      | _ => None
      end
  | Raise _ => None
  end.

(** Successive requests in one process: the globals each one leaves are the
    next one's. *)
Fixpoint serve (json_loads : string → result pyval) (json_dumps : pyval → string)
    (requests : list (World * pyval * pyval)) (st : LoadState) : LoadState :=
  match requests with
  | [] => st
  | (w, event, context) :: requests' =>
      serve json_loads json_dumps requests'
        (final (lambda_handler json_loads json_dumps w event context st))
  end.

(** ** Sample worlds *)

(** A classifier that scores every text the same way. *)
Definition constant_model (toxic not_toxic : float) : Language :=
  {| pipe := λ _, Ok {| cats := {[ "TOXIC" := toxic; "NOT_TOXIC" := not_toxic ]} |} |}.

(** Cold start with a reachable bucket: nothing under [/tmp], the bucket
    holds a folder entry and two files, and the model loads. *)
Definition cold_world : World := {|
  os_path_exists := λ _, false;
  boto3_client := Ok tt;
  tempfile_mkdtemp := Ok "/tmp/tmpk3x9_q2a";
  os_makedirs := λ _, Ok tt;
  list_objects_v2 := λ _ _,
    Ok (Some ["toxic_chat_model_full/";
              "toxic_chat_model_full/config.cfg";
              "toxic_chat_model_full/textcat/model"]);
  download_file := λ _ _ _, Ok tt;
  spacy_load := λ _, Ok (constant_model 0.875 0.125);
|}.

(** The marker file is present under [/tmp]; the bucket is never needed. *)
Definition warm_world : World := {|
  os_path_exists := λ p, String.eqb p "/tmp/toxic_chat_model_full/config.cfg";
  boto3_client := Ok tt;
  tempfile_mkdtemp := Ok "/tmp/tmpk3x9_q2a";
  os_makedirs := λ _, Ok tt;
  list_objects_v2 := λ _ _, Raise (ExternalError "EndpointConnectionError" "unreachable");
  download_file := λ _ _ _, Raise (ExternalError "EndpointConnectionError" "unreachable");
  spacy_load := λ _, Ok (constant_model 0.875 0.125);
|}.

(** Cold start with an unreachable bucket. *)
Definition offline_world : World := {|
  os_path_exists := λ _, false;
  boto3_client := Ok tt;
  tempfile_mkdtemp := Ok "/tmp/tmpk3x9_q2a";
  os_makedirs := λ _, Ok tt;
  list_objects_v2 := λ _ _, Raise (ExternalError "EndpointConnectionError" "unreachable");
  download_file := λ _ _ _, Raise (ExternalError "EndpointConnectionError" "unreachable");
  spacy_load := λ _, Raise (ExternalError "OSError" "[E050] Can't find model");
|}.

(** ** Sample requests *)

(** A stand-in for [json.loads] that knows three documents. *)
Definition sample_loads (s : string) : result pyval :=
  if String.eqb s "{}" then Ok (PDict [])
  else if String.eqb s "null" then Ok PNone
  else if String.eqb s "5" then Ok (PInt 5)
  else Raise (ExternalError "JSONDecodeError" "Expecting value").

(** A stand-in for [json.dumps] that shows the keys of a dict. *)
Definition sample_dumps (v : pyval) : string :=
  match v with
  | PDict d => "{" +:+ String.concat "," (map fst d) +:+ "}"
  | _ => "_"
  end.

(** A process that holds a loaded model. *)
Definition loaded_state : LoadState :=
  {| nlp_model := Some (constant_model 0.875 0.125); model_loaded := true |}.

(** ** Further sample worlds *)

(** The bucket answers, but one object cannot be read. *)
Definition flaky_world : World := {|
  os_path_exists := λ _, false;
  boto3_client := Ok tt;
  tempfile_mkdtemp := Ok "/tmp/tmpk3x9_q2a";
  os_makedirs := λ _, Ok tt;
  list_objects_v2 := λ _ _,
    Ok (Some ["toxic_chat_model_full/";
              "toxic_chat_model_full/config.cfg";
              "toxic_chat_model_full/textcat/model";
              "toxic_chat_model_full/vocab/strings.json"]);
  download_file := λ _ key _,
    if String.eqb key "toxic_chat_model_full/textcat/model"
    then Raise (ExternalError "ClientError" "Access Denied")
    else Ok tt;
  spacy_load := λ _, Ok (constant_model 0.875 0.125);
|}.

(** The prefix holds its folder entry and nothing else. *)
Definition folders_world : World := {|
  os_path_exists := λ _, false;
  boto3_client := Ok tt;
  tempfile_mkdtemp := Ok "/tmp/tmpk3x9_q2a";
  os_makedirs := λ _, Ok tt;
  list_objects_v2 := λ _ _, Ok (Some ["toxic_chat_model_full/"]);
  download_file := λ _ _ _, Ok tt;
  spacy_load := λ _, Raise (ExternalError "OSError" "[E053] Could not read config file");
|}.

(** A process whose model scores the toxic label with a NaN. *)
Definition nan_state : LoadState :=
  {| nlp_model := Some (constant_model nan 0.25); model_loaded := true |}.

(** ** Tactics *)

Ltac run_monad :=
  unfold try_except, mbind, M_bind, mret, M_ret, extern, lift, raise, print,
    get_nlp_model, get_model_loaded, set_nlp_model, set_model_loaded,
    outcome, final, trace;
  simpl.

Ltac run := unfold load_model, load_model_from_s3, download_object; run_monad.

Ltac no_call :=
  repeat first
    [ assumption
    | apply Forall_nil_2
    | apply Forall_cons_2; [reflexivity|]
    | apply Forall_app_2 ].

Ltac in_trace Hin :=
  repeat (apply elem_of_cons in Hin as [Hin | Hin]; [congruence|]);
  apply elem_of_nil in Hin; contradiction.

Ltac compare_cases :=
  repeat match goal with
  | H : context [Pos.compare_cont Eq ?a ?b] |- _ =>
      change (Pos.compare_cont Eq a b) with (Pos.compare a b) in H
  | |- context [Pos.compare_cont Eq ?a ?b] =>
      change (Pos.compare_cont Eq a b) with (Pos.compare a b)
  end;
  repeat match goal with
  | H : context [(?a ?= ?b)%Z] |- _ => destruct (Z.compare_spec a b); simpl in H
  | |- context [(?a ?= ?b)%Z] => destruct (Z.compare_spec a b); simpl
  | H : context [(?a ?= ?b)%positive] |- _ =>
      destruct (Pos.compare_spec a b); simpl in H
  | |- context [(?a ?= ?b)%positive] => destruct (Pos.compare_spec a b); simpl
  end;
  subst; try discriminate; try reflexivity; try lia.

(** * Properties *)

(** ** The string operations on the paths and keys of the module *)

Example os_path_join_relative :
  os_path_join "/tmp/toxic_chat_model_full" "config.cfg"
  = "/tmp/toxic_chat_model_full/config.cfg".
Proof. reflexivity. Qed.

Example os_path_join_absolute : os_path_join "/a/b" "/c" = "/c".
Proof. reflexivity. Qed.

Example os_path_dirname_nested :
  os_path_dirname "/t/m/textcat/model" = "/t/m/textcat".
Proof. reflexivity. Qed.

Example os_path_dirname_root : os_path_dirname "/cfg" = "/".
Proof. reflexivity. Qed.

Example str_remove_prefix :
  str_remove "toxic_chat_model_full/vocab/strings.json" "toxic_chat_model_full/"
  = "vocab/strings.json".
Proof. reflexivity. Qed.

Example str_remove_every_occurrence : str_remove "abXabYab" "ab" = "XY".
Proof. reflexivity. Qed.

Example endswith_folder : endswith "toxic_chat_model_full/vocab/" "/" = true.
Proof. reflexivity. Qed.

(** ** The Model Provisioner, path by path *)

(** *** The cache-hit path *)

Lemma load_model_cache_hit (w : World) (st : LoadState) :
  cache_hit st = true →
  load_model w st = (Ok (nlp_model st), st, [Print "Using cached model"]).
Proof.
  unfold cache_hit. intros Hhit. run. rewrite Hhit. reflexivity.
Qed.

(** *** The warm-start path *)

Lemma load_model_marker_present (w : World) (st : LoadState) :
  cache_hit st = false →
  os_path_exists w marker = true →
  load_model w st =
    (Ok (nlp_model st),
     {| nlp_model := nlp_model st; model_loaded := true |},
     [OsPathExists marker;
      Print "Found existing model in /tmp";
      Print "Model loaded successfully!"]).
Proof.
  unfold cache_hit, marker, probe_dir. intros Hmiss Hfound. run.
  rewrite Hmiss. simpl in Hfound. rewrite Hfound. reflexivity.
Qed.

(** *** The remote fetch *)

Lemma for_each_final {A} (body : A → M unit) (l : list A) (st : LoadState) :
  (∀ x st0, final (body x st0) = st0) →
  final (for_each l body st) = st.
Proof.
  intros Hbody. revert st.
  induction l as [|x l IH]; intros st; [reflexivity|].
  simpl. unfold mbind, M_bind.
  pose proof (Hbody x st) as Hx.
  destruct (body x st) as [[[[]|e] st1] t1]; unfold final in *; simpl in *; subst.
  - specialize (IH st). destruct (for_each l body st) as [[r st2] t2]. exact IH.
  - reflexivity.
Qed.

Lemma download_object_final (w : World) (b p mp k : string) (st : LoadState) :
  final (download_object w b p mp k st) = st.
Proof.
  unfold download_object. destruct (negb (endswith k "/")); [|reflexivity].
  run_monad. destruct (os_makedirs w _) as [[]|e]; [|reflexivity].
  destruct (download_file w _ _ _) as [[]|e]; reflexivity.
Qed.

(** The fetch never touches the globals: only [load_model] assigns them. *)
Lemma load_model_from_s3_final (w : World) (st : LoadState) :
  final (load_model_from_s3 w st) = st.
Proof.
  unfold load_model_from_s3. run_monad.
  destruct (boto3_client w) as [[]|e]; [|reflexivity].
  destruct (tempfile_mkdtemp w) as [temp_dir|e]; [|reflexivity].
  destruct (os_makedirs w _) as [[]|e]; [|reflexivity].
  destruct (list_objects_v2 w _ _) as [[ks|]|e]; try reflexivity.
  pose proof (for_each_final
    (download_object w "toxic-chat-classifier" "toxic_chat_model_full/"
       (os_path_join temp_dir "toxic_chat_model_full")) ks st
    (λ x st0, download_object_final w _ _ _ x st0)) as Hloop.
  unfold final in Hloop.
  destruct (for_each ks _ st) as [[[[]|e] st1] t1]; simpl in *; subst.
  - destruct (spacy_load w _) as [nlp|e]; reflexivity.
  - reflexivity.
Qed.

(** On a cache miss without the marker file, [load_model] is the fetch
    followed by the two assignments, or the fetch's exception. *)
Lemma load_model_marker_absent (w : World) (st : LoadState) :
  cache_hit st = false →
  os_path_exists w marker = false →
  load_model w st =
    match load_model_from_s3 w st with
    | (Ok nlp, _, t) =>
        (Ok (Some nlp),
         {| nlp_model := Some nlp; model_loaded := true |},
         OsPathExists marker
           :: Print "Model not found locally, downloading from S3..."
           :: (t ++ [Print "Model loaded successfully!"])%list)
    | (Raise e, _, t) =>
        (Raise e, st,
         OsPathExists marker
           :: Print "Model not found locally, downloading from S3..."
           :: (t ++ [Print ("Error loading model: " +:+ str_exn e)])%list)
    end.
Proof.
  unfold cache_hit, marker, probe_dir. intros Hmiss Habsent.
  pose proof (load_model_from_s3_final w st) as Hst.
  unfold load_model. run_monad. rewrite Hmiss.
  simpl in Habsent. rewrite Habsent. simpl.
  unfold final in Hst.
  destruct (load_model_from_s3 w st) as [[[nlp|e] st1] t]; simpl in *; subst.
  - rewrite app_nil_r. reflexivity.
  - reflexivity.
Qed.

Lemma download_object_fetched (w : World) (mp k : string) (st : LoadState) :
  object_fetched w mp k →
  outcome (download_object w s3_bucket s3_prefix mp k st) = Ok tt.
Proof.
  unfold object_fetched, download_object, local_file_path.
  intros [Hdir | [Hmk Hdl]].
  - rewrite Hdir. reflexivity.
  - destruct (negb (endswith k "/")); [|reflexivity].
    run_monad. rewrite Hmk, Hdl. reflexivity.
Qed.

Lemma for_each_fetched (w : World) (mp : string) (ks : list string) (st : LoadState) :
  Forall (object_fetched w mp) ks →
  outcome (for_each ks (download_object w s3_bucket s3_prefix mp) st) = Ok tt.
Proof.
  intros Hall. revert st.
  induction Hall as [|k ks Hk _ IH]; intros st; [reflexivity|].
  simpl. unfold mbind, M_bind.
  pose proof (download_object_fetched w mp k st Hk) as Hout.
  pose proof (download_object_final w s3_bucket s3_prefix mp k st) as Hst.
  destruct (download_object w _ _ mp k st) as [[r st1] t1].
  unfold outcome, final in *. simpl in *. subst.
  specialize (IH st).
  destruct (for_each ks _ st) as [[r2 st2] t2]. exact IH.
Qed.

Lemma for_each_download_raises (w : World) (mp : string)
    (before : list string) (key : string) (after : list string)
    (e : exn) (st : LoadState) :
  Forall (object_fetched w mp) before →
  endswith key "/" = false →
  os_makedirs w (os_path_dirname (local_file_path mp key)) = Ok tt →
  download_file w s3_bucket key (local_file_path mp key) = Raise e →
  outcome (for_each (before ++ key :: after)%list
             (download_object w s3_bucket s3_prefix mp) st) = Raise e.
Proof.
  intros Hall Hfile Hmk Hdl. revert st.
  induction Hall as [|k ks Hk _ IH]; intros st.
  - simpl. unfold mbind, M_bind, download_object, local_file_path in *.
    rewrite Hfile. run_monad. rewrite Hmk, Hdl. reflexivity.
  - simpl. unfold mbind, M_bind.
    pose proof (download_object_fetched w mp k st Hk) as Hout.
    pose proof (download_object_final w s3_bucket s3_prefix mp k st) as Hst.
    destruct (download_object w _ _ mp k st) as [[r st1] t1].
    unfold outcome, final in *. simpl in *. subst.
    specialize (IH st).
    destruct (for_each (ks ++ key :: after)%list _ st) as [[r2 st2] t2]. exact IH.
Qed.

(** Each of the four failures makes the fetch raise that very exception. *)
Lemma load_model_from_s3_raises (w : World) (st : LoadState)
    (temp_dir : string) (e : exn) :
  fetch_ready w temp_dir →
  provisioning_failure w (download_dir temp_dir) e →
  outcome (load_model_from_s3 w st) = Raise e.
Proof.
  intros (Hclient & Htmp & Hmk) Hfail. unfold download_dir in *.
  unfold load_model_from_s3. run_monad. rewrite Hclient, Htmp, Hmk.
  destruct Hfail as [e Hlist | Hlist | e before key after Hlist Hall Hfile Hdir Hdl
                    | e keys Hlist Hall Hload];
    unfold s3_bucket, s3_prefix in Hlist; rewrite Hlist; simpl.
  - reflexivity.
  - reflexivity.
  - pose proof (for_each_download_raises w _ before key after e st
                  Hall Hfile Hdir Hdl) as Hloop.
    unfold outcome, s3_bucket, s3_prefix in Hloop.
    destruct (for_each (before ++ key :: after)%list _ st) as [[r st1] t1].
    simpl in Hloop. subst. reflexivity.
  - pose proof (for_each_fetched w _ keys st Hall) as Hloop.
    unfold outcome, s3_bucket, s3_prefix in Hloop.
    destruct (for_each keys _ st) as [[r st1] t1].
    simpl in Hloop. subst. rewrite Hload. reflexivity.
Qed.

(** Once the set-up calls return, the fetch reaches the remote listing. *)
Lemma load_model_from_s3_lists (w : World) (st : LoadState) (temp_dir : string) :
  fetch_ready w temp_dir →
  ListObjectsV2 s3_bucket s3_prefix ∈ trace (load_model_from_s3 w st).
Proof.
  intros (Hclient & Htmp & Hmk). unfold download_dir in *.
  unfold load_model_from_s3. run_monad. rewrite Hclient, Htmp, Hmk.
  destruct (list_objects_v2 w _ _) as [[ks|]|e]; simpl.
  - destruct (for_each ks _ st) as [[[[]|e] st1] t1]; simpl.
    + destruct (spacy_load w _); simpl; set_solver.
    + set_solver.
  - set_solver.
  - set_solver.
Qed.

(** *** What a call of [load_model] does to the globals *)

(** A call that raises leaves both globals as they were, and was not a
    cache hit. *)
Lemma load_model_raise_final (w : World) (st : LoadState) (e : exn) :
  outcome (load_model w st) = Raise e →
  final (load_model w st) = st ∧ cache_hit st = false.
Proof.
  intros Hraise.
  destruct (cache_hit st) eqn:Hhit.
  - rewrite load_model_cache_hit in Hraise by exact Hhit. discriminate.
  - destruct (os_path_exists w marker) eqn:Hfound.
    + rewrite load_model_marker_present in Hraise by assumption. discriminate.
    + rewrite load_model_marker_absent in * by assumption.
      destruct (load_model_from_s3 w st) as [[[nlp|e'] st1] t];
        [discriminate | split; reflexivity].
Qed.

(** A cache miss without the marker file runs the fetch, up to the remote
    listing when the set-up calls return. *)
Lemma load_model_miss_lists (w : World) (st : LoadState) (temp_dir : string) :
  cache_hit st = false →
  os_path_exists w marker = false →
  fetch_ready w temp_dir →
  ListObjectsV2 s3_bucket s3_prefix ∈ trace (load_model w st).
Proof.
  intros Hmiss Habsent Hready.
  pose proof (load_model_from_s3_lists w st temp_dir Hready) as Hin.
  rewrite load_model_marker_absent by assumption.
  unfold trace in *.
  destruct (load_model_from_s3 w st) as [[[nlp|e] st1] t]; simpl in *;
    do 2 apply list_elem_of_further; apply elem_of_app; left; exact Hin.
Qed.

(** A successful fetch leaves the flag set and the fetched handle held. *)
Lemma load_model_fetch_loads (w : World) (st : LoadState) (nlp : Language) :
  cache_hit st = false →
  os_path_exists w marker = false →
  outcome (load_model_from_s3 w st) = Ok nlp →
  outcome (load_model w st) = Ok (Some nlp) ∧
  final (load_model w st) = {| nlp_model := Some nlp; model_loaded := true |}.
Proof.
  intros Hmiss Habsent Hok.
  rewrite load_model_marker_absent by assumption.
  unfold outcome in Hok.
  destruct (load_model_from_s3 w st) as [[[nlp'|e] st1] t]; simpl in Hok;
    [|discriminate].
  injection Hok as ->. split; reflexivity.
Qed.

(** Away from the warm-start path the invariant is kept: a call that finds
    no marker file takes a state satisfying it to one satisfying it. *)
Lemma load_model_marker_absent_inv (w : World) (st : LoadState) :
  os_path_exists w marker = false →
  load_state_inv st →
  load_state_inv (final (load_model w st)).
Proof.
  intros Habsent Hinv.
  destruct (cache_hit st) eqn:Hhit.
  - rewrite load_model_cache_hit by exact Hhit. exact Hinv.
  - rewrite load_model_marker_absent by assumption.
    destruct (load_model_from_s3 w st) as [[[nlp|e] st1] t]; [|exact Hinv].
    unfold load_state_inv, final. simpl. split; [discriminate | reflexivity].
Qed.

(** C7.  Once the flag is set and a handle is held, every later call of
    [load_model] in the process, whatever the world looks like by then,
    returns that handle, leaves the globals as they are, and does nothing
    but print the cache-hit line: no probe of the marker file, no remote
    listing, no download. *)
Theorem loaded_is_terminal (h : Language) (st : LoadState) (ws : list World) :
  model_loaded st = true →
  nlp_model st = Some h →
  Forall (λ r, outcome r = Ok (Some h) ∧ final r = st ∧
               trace r = [Print "Using cached model"])
         (load_model_runs ws st).
Proof.
  intros Hflag Hhandle.
  assert (cache_hit st = true) as Hhit
    by (unfold cache_hit; rewrite Hflag, Hhandle; reflexivity).
  induction ws as [|w ws IH]; simpl; [constructor|].
  rewrite (load_model_cache_hit w st Hhit).
  constructor; [|exact IH].
  unfold outcome, final, trace. simpl. rewrite Hhandle. auto.
Qed.

(** C7 at the state a cold start leaves: three further calls, with the
    bucket unreachable, with the marker file present, and with the bucket
    back, all hit the cache. *)
Lemma loaded_is_terminal_witness :
  let st := final (load_model cold_world initial) in
  model_loaded st = true ∧
  nlp_model st = Some (constant_model 0.875 0.125) ∧
  Forall (λ r, outcome r = Ok (Some (constant_model 0.875 0.125)) ∧ final r = st ∧
               trace r = [Print "Using cached model"])
         (load_model_runs [offline_world; warm_world; cold_world] st).
Proof.
  split; [reflexivity|]. split; [reflexivity|].
  apply (loaded_is_terminal (constant_model 0.875 0.125)
           (final (load_model cold_world initial))
           [offline_world; warm_world; cold_world]); reflexivity.
Defined.

(** C1.  In a fresh process that finds the marker file, [load_model] sets
    the flag and reports success but never calls [spacy.load]: it returns
    [None], and the handle stays empty. *)
Theorem warm_start_returns_no_model :
  os_path_exists warm_world marker = true ∧
  cache_hit initial = false ∧
  load_model warm_world initial =
    (Ok None,
     {| nlp_model := None; model_loaded := true |},
     [OsPathExists "/tmp/toxic_chat_model_full/config.cfg";
      Print "Found existing model in /tmp";
      Print "Model loaded successfully!"]).
Proof. repeat split; reflexivity. Qed.

(** C2.  The same call takes the initial state, where the invariant holds,
    to one where it fails: flag set, handle empty.  From there a failed
    fetch raises and still leaves the flag set with no handle. *)
Theorem warm_start_breaks_load_state_inv :
  load_state_inv initial ∧
  ¬ load_state_inv (final (load_model warm_world initial)) ∧
  let r := load_model offline_world (final (load_model warm_world initial)) in
  outcome r = Raise (ExternalError "EndpointConnectionError" "unreachable") ∧
  model_loaded (final r) = true ∧
  nlp_model (final r) = None.
Proof.
  split; [|split].
  - unfold load_state_inv, initial. simpl. split; [discriminate | congruence].
  - unfold load_state_inv. intros [Hflag _].
    specialize (Hflag eq_refl). apply Hflag. reflexivity.
  - repeat split; reflexivity.
Qed.

(** Provisioning failures away from the warm-start path.  Once the fetch
    has started, each of the four failures (listing raises, nothing under
    the prefix, a download raises, the model fails to load) comes out of
    [load_model] as that very exception; both globals are left as they
    were, so the state is still a cache miss and a flag that was unset stays
    unset; and a next call that again finds no marker file goes back to the
    remote listing. *)
Theorem provisioning_failure_keeps_not_loaded
    (w : World) (st : LoadState) (temp_dir : string) (e : exn) :
  cache_hit st = false →
  os_path_exists w marker = false →
  fetch_ready w temp_dir →
  provisioning_failure w (download_dir temp_dir) e →
  outcome (load_model w st) = Raise e ∧
  final (load_model w st) = st ∧
  cache_hit (final (load_model w st)) = false ∧
  (model_loaded st = false → model_loaded (final (load_model w st)) = false) ∧
  ∀ (w' : World) (temp_dir' : string),
    os_path_exists w' marker = false →
    fetch_ready w' temp_dir' →
    ListObjectsV2 s3_bucket s3_prefix
      ∈ trace (load_model w' (final (load_model w st))).
Proof.
  intros Hmiss Habsent Hready Hfail.
  pose proof (load_model_from_s3_raises w st temp_dir e Hready Hfail) as Hraise.
  assert (outcome (load_model w st) = Raise e) as Hout.
  { rewrite load_model_marker_absent by assumption.
    unfold outcome in *.
    destruct (load_model_from_s3 w st) as [[[nlp|e'] st1] t]; simpl in *;
      [discriminate | congruence]. }
  destruct (load_model_raise_final w st e Hout) as [Hst _].
  rewrite Hst.
  split; [exact Hout|]. split; [reflexivity|]. split; [exact Hmiss|].
  split; [intros Hflag; exact Hflag|].
  intros w' temp_dir' Habsent' Hready'.
  exact (load_model_miss_lists w' st temp_dir' Hmiss Habsent' Hready').
Qed.

(** The same in a fresh process whose bucket is unreachable, retried at once. *)
Lemma provisioning_failure_keeps_not_loaded_witness :
  let r := load_model offline_world initial in
  outcome r = Raise (ExternalError "EndpointConnectionError" "unreachable") ∧
  final r = initial ∧
  cache_hit (final r) = false ∧
  (model_loaded initial = false → model_loaded (final r) = false) ∧
  ∀ (w' : World) (temp_dir' : string),
    os_path_exists w' marker = false →
    fetch_ready w' temp_dir' →
    ListObjectsV2 s3_bucket s3_prefix ∈ trace (load_model w' (final r)).
Proof.
  apply (provisioning_failure_keeps_not_loaded offline_world initial
           "/tmp/tmpk3x9_q2a"
           (ExternalError "EndpointConnectionError" "unreachable")).
  - reflexivity.
  - reflexivity.
  - repeat split; reflexivity.
  - apply listing_raises. reflexivity.
Defined.

(** C3.  A provisioning failure that does not leave the Load State
    "not-loaded".  A first call finds the marker file and leaves the flag
    set with no handle; the marker then gone and the bucket unreachable, the
    second call starts the fetch, the listing raises, and [load_model]
    re-raises: the flag is still set and the handle still empty. *)
Theorem failed_fetch_after_warm_start_leaves_flag_set :
  let st := final (load_model warm_world initial) in
  let r := load_model offline_world st in
  st = {| nlp_model := None; model_loaded := true |} ∧
  cache_hit st = false ∧
  os_path_exists offline_world marker = false ∧
  fetch_ready offline_world "/tmp/tmpk3x9_q2a" ∧
  provisioning_failure offline_world (download_dir "/tmp/tmpk3x9_q2a")
    (ExternalError "EndpointConnectionError" "unreachable") ∧
  outcome r = Raise (ExternalError "EndpointConnectionError" "unreachable") ∧
  ListObjectsV2 s3_bucket s3_prefix ∈ trace r ∧
  model_loaded (final r) = true ∧
  nlp_model (final r) = None.
Proof.
  split; [reflexivity|]. split; [reflexivity|]. split; [reflexivity|].
  split; [repeat split; reflexivity|].
  split; [apply listing_raises; reflexivity|].
  split; [reflexivity|].
  split; [|split; reflexivity].
  vm_compute. do 5 apply list_elem_of_further. apply list_elem_of_here.
Qed.

(** ** The handler, case by case *)

Section HandlerCases.
Variable json_loads : string → result pyval.
Variable json_dumps : pyval → string.
Variable w : World.

Lemma predict_toxicity_cases (text : pyval) (st : LoadState) :
  predict_toxicity text st =
    match nlp_model st with
    | None => (Raise (Exception "Model not loaded"), st, [])
    | Some nlp =>
        match pipe nlp text with
        | Raise e =>
            (Raise e, st,
             [ModelCall text; Print ("Error in prediction: " +:+ str_exn e)])
        | Ok doc =>
            match cats doc !! "TOXIC", cats doc !! "NOT_TOXIC" with
            | Some toxic_score, Some not_toxic_score =>
                (Ok (prediction text toxic_score not_toxic_score), st, [ModelCall text])
            | None, _ =>
                (Raise (KeyError "TOXIC"), st,
                 [ModelCall text; Print "Error in prediction: 'TOXIC'"])
            | Some _, None =>
                (Raise (KeyError "NOT_TOXIC"), st,
                 [ModelCall text; Print "Error in prediction: 'NOT_TOXIC'"])
            end
        end
    end.
Proof.
  unfold predict_toxicity, cats_getitem. run_monad.
  destruct (nlp_model st) as [nlp|]; [|reflexivity].
  destruct (pipe nlp text) as [doc|e]; [|reflexivity].
  destruct (cats doc !! "TOXIC") as [ts|]; [|reflexivity].
  destruct (cats doc !! "NOT_TOXIC") as [ns|]; reflexivity.
Qed.

Lemma lambda_handler_cases (event context : pyval) (st : LoadState) :
  lambda_handler json_loads json_dumps w event context st =
    match request_body json_loads event with
    | Raise e => server_error json_dumps e st []
    | Ok body =>
        match py_contains "text" body with
        | Raise e => server_error json_dumps e st []
        | Ok false => (Ok (response 400 (json_dumps missing_text_body)), st, [])
        | Ok true =>
            match py_getitem body "text" with
            | Raise e => server_error json_dumps e st []
            | Ok text =>
                match load_model w st with
                | (Raise e, st1, t1) => server_error json_dumps e st1 t1
                | (Ok _, st1, t1) =>
                    match predict_toxicity text st1 with
                    | (Raise e, st2, t2) => server_error json_dumps e st2 (t1 ++ t2)%list
                    | (Ok result, st2, t2) =>
                        (Ok (response 200 (json_dumps result)), st2, (t1 ++ t2)%list)
                    end
                end
            end
        end
    end.
Proof.
  unfold lambda_handler, request_body, server_error. run_monad.
  destruct (py_contains "body" event) as [[|]|e]; simpl; [| |reflexivity].
  - destruct (py_getitem event "body") as [raw|e]; simpl; [|reflexivity].
    destruct (py_json_loads json_loads raw) as [body|e]; simpl; [|reflexivity].
    destruct (py_contains "text" body) as [[|]|e]; simpl; try reflexivity.
    destruct (py_getitem body "text") as [text|e]; simpl; [|reflexivity].
    destruct (load_model w st) as [[[r|e] st1] t1]; simpl; [|reflexivity].
    destruct (predict_toxicity text st1) as [[[res|e] st2] t2]; simpl.
    + rewrite app_nil_r. reflexivity.
    + reflexivity.
  - destruct (py_contains "text" event) as [[|]|e]; simpl; try reflexivity.
    destruct (py_getitem event "text") as [text|e]; simpl; [|reflexivity].
    destruct (load_model w st) as [[[r|e] st1] t1]; simpl; [|reflexivity].
    destruct (predict_toxicity text st1) as [[[res|e] st2] t2]; simpl.
    + rewrite app_nil_r. reflexivity.
    + reflexivity.
Qed.
End HandlerCases.

(** ** Comparison of floats *)

Lemma SFcompare_antisym (x y : SpecFloat.spec_float) :
  SpecFloat.SFcompare y x = option_map CompOpp (SpecFloat.SFcompare x y).
Proof.
  destruct x as [sx|sx| |sx mx ex], y as [sy|sy| |sy my ey]; simpl;
    try reflexivity;
    try (destruct sx; reflexivity);
    try (destruct sy; reflexivity);
    try (destruct sx, sy; reflexivity).
  destruct sx, sy; simpl; try reflexivity;
    rewrite (Z.compare_antisym ex ey); destruct (ex ?= ey)%Z; simpl;
    try reflexivity;
    change (Pos.compare_cont Eq my mx) with (Pos.compare my mx);
    change (Pos.compare_cont Eq mx my) with (Pos.compare mx my);
    rewrite (Pos.compare_antisym mx my); reflexivity.
Qed.

Lemma SFcompare_None (x y : SpecFloat.spec_float) :
  SpecFloat.SFcompare x y = None →
  x = SpecFloat.S754_nan ∨ y = SpecFloat.S754_nan.
Proof.
  destruct x as [sx|sx| |sx mx ex], y as [sy|sy| |sy my ey]; simpl;
    intros H; try discriminate; auto.
Qed.

Lemma not_nan_compare_refl (a : float) :
  is_nan a = false →
  SpecFloat.SFcompare (Prim2SF a) (Prim2SF a) = Some Eq.
Proof.
  unfold is_nan. rewrite FloatAxioms.eqb_spec. unfold SpecFloat.SFeqb.
  destruct (SpecFloat.SFcompare (Prim2SF a) (Prim2SF a)) as [[| |]|];
    simpl; intros H; try discriminate; reflexivity.
Qed.

Lemma not_nan_leb_refl (a : float) : is_nan a = false → (a <=? a)%float = true.
Proof.
  intros H. rewrite FloatAxioms.leb_spec. unfold SpecFloat.SFleb.
  rewrite (not_nan_compare_refl a H). reflexivity.
Qed.

(** [max(a, b)] is one of its arguments, and when neither is a NaN it is
    at least as large as both. *)
Lemma py_max_is_argument (a b : float) : py_max a b = a ∨ py_max a b = b.
Proof. unfold py_max. destruct (a <? b)%float; auto. Qed.

Lemma py_max_upper_bound (a b : float) :
  is_nan a = false →
  is_nan b = false →
  (a <=? py_max a b)%float = true ∧ (b <=? py_max a b)%float = true.
Proof.
  intros Ha Hb. unfold py_max.
  destruct (a <? b)%float eqn:Hlt.
  - split; [|exact (not_nan_leb_refl b Hb)].
    rewrite FloatAxioms.ltb_spec in Hlt. rewrite FloatAxioms.leb_spec.
    unfold SpecFloat.SFltb, SpecFloat.SFleb in *.
    destruct (SpecFloat.SFcompare (Prim2SF a) (Prim2SF b)) as [[| |]|];
      try discriminate; reflexivity.
  - split; [exact (not_nan_leb_refl a Ha)|].
    rewrite FloatAxioms.ltb_spec in Hlt. rewrite FloatAxioms.leb_spec.
    unfold SpecFloat.SFltb, SpecFloat.SFleb in *.
    rewrite (SFcompare_antisym (Prim2SF a) (Prim2SF b)).
    pose proof (not_nan_compare_refl a Ha) as Haa.
    pose proof (not_nan_compare_refl b Hb) as Hbb.
    destruct (SpecFloat.SFcompare (Prim2SF a) (Prim2SF b)) as [[| |]|] eqn:Hab;
      simpl; try reflexivity; try discriminate.
    apply SFcompare_None in Hab as [Hnan | Hnan]; rewrite Hnan in *; discriminate.
Qed.

(** ** Which events a run can contain *)

Lemma for_each_trace {A} (P : event → Prop) (body : A → M unit)
    (l : list A) (st : LoadState) :
  (∀ x st0, Forall P (trace (body x st0))) →
  Forall P (trace (for_each l body st)).
Proof.
  intros Hbody. revert st.
  induction l as [|x l IH]; intros st; [constructor|].
  simpl. unfold mbind, M_bind.
  pose proof (Hbody x st) as Hx.
  destruct (body x st) as [[[[]|e] st1] t1]; unfold trace in *; simpl in *.
  - specialize (IH st1). destruct (for_each l body st1) as [[r st2] t2].
    simpl in *. apply Forall_app. split; assumption.
  - exact Hx.
Qed.

Lemma download_object_no_call (w : World) (b p mp k : string) (st : LoadState) :
  Forall (λ ev, is_model_call ev = false) (trace (download_object w b p mp k st)).
Proof.
  unfold download_object. destruct (negb (endswith k "/")); [|constructor].
  run_monad. destruct (os_makedirs w _) as [[]|e]; [|repeat constructor].
  destruct (download_file w _ _ _) as [[]|e]; repeat constructor.
Qed.

Lemma load_model_from_s3_no_call (w : World) (st : LoadState) :
  Forall (λ ev, is_model_call ev = false) (trace (load_model_from_s3 w st)).
Proof.
  unfold load_model_from_s3. run_monad.
  destruct (boto3_client w) as [[]|e]; [|repeat constructor].
  destruct (tempfile_mkdtemp w) as [temp_dir|e]; [|repeat constructor].
  destruct (os_makedirs w _) as [[]|e]; [|repeat constructor].
  destruct (list_objects_v2 w _ _) as [[ks|]|e]; try (repeat constructor).
  pose proof (for_each_trace (λ ev, is_model_call ev = false)
    (download_object w "toxic-chat-classifier" "toxic_chat_model_full/"
       (os_path_join temp_dir "toxic_chat_model_full")) ks st
    (λ x st0, download_object_no_call w _ _ _ x st0)) as Hloop.
  unfold trace in Hloop.
  destruct (for_each ks _ st) as [[[[]|e] st1] t1]; simpl in *.
  - destruct (spacy_load w _) as [nlp|e]; simpl; no_call.
  - no_call.
Qed.

(** The provisioner never calls the model. *)
Lemma load_model_no_call (w : World) (st : LoadState) :
  Forall (λ ev, is_model_call ev = false) (trace (load_model w st)).
Proof.
  destruct (cache_hit st) eqn:Hhit.
  - rewrite load_model_cache_hit by exact Hhit. repeat constructor.
  - destruct (os_path_exists w marker) eqn:Hfound.
    + rewrite load_model_marker_present by assumption. repeat constructor.
    + rewrite load_model_marker_absent by assumption.
      pose proof (load_model_from_s3_no_call w st) as Hfetch.
      unfold trace in *.
      destruct (load_model_from_s3 w st) as [[[nlp|e] st1] t]; simpl in *;
        no_call.
Qed.

(** Every call of the provisioner shows in the trace. *)
Lemma load_model_trace_nonempty (w : World) (st : LoadState) :
  trace (load_model w st) ≠ [].
Proof.
  destruct (cache_hit st) eqn:Hhit.
  - rewrite load_model_cache_hit by exact Hhit. discriminate.
  - destruct (os_path_exists w marker) eqn:Hfound.
    + rewrite load_model_marker_present by assumption. discriminate.
    + rewrite load_model_marker_absent by assumption.
      destruct (load_model_from_s3 w st) as [[[nlp|e] st1] t]; discriminate.
Qed.

(** The model is called with the handler's [text] and nothing else. *)
Lemma predict_toxicity_calls (text x : pyval) (st : LoadState) :
  ModelCall x ∈ trace (predict_toxicity text st) → x = text.
Proof.
  rewrite predict_toxicity_cases.
  destruct (nlp_model st) as [nlp|]; [|unfold trace; simpl; intros Hin; in_trace Hin].
  destruct (pipe nlp text) as [doc|e]; [|unfold trace; simpl; intros Hin; in_trace Hin].
  destruct (cats doc !! "TOXIC") as [ts|], (cats doc !! "NOT_TOXIC") as [ns|];
    unfold trace; simpl; intros Hin; in_trace Hin.
Qed.

(** [predict_toxicity] reads the globals and leaves them alone. *)
Lemma predict_toxicity_final (text : pyval) (st : LoadState) :
  final (predict_toxicity text st) = st.
Proof.
  rewrite predict_toxicity_cases.
  destruct (nlp_model st) as [nlp|]; [|reflexivity].
  destruct (pipe nlp text) as [doc|e]; [|reflexivity].
  destruct (cats doc !! "TOXIC") as [ts|], (cats doc !! "NOT_TOXIC") as [ns|];
    reflexivity.
Qed.

(** A result of [predict_toxicity] is the dict built from the two scores
    the model gave. *)
Lemma predict_toxicity_Ok (text : pyval) (st st' : LoadState)
    (r : pyval) (t : list event) :
  predict_toxicity text st = (Ok r, st', t) →
  ∃ nlp doc toxic_score not_toxic_score,
    nlp_model st = Some nlp ∧
    pipe nlp text = Ok doc ∧
    cats doc !! "TOXIC" = Some toxic_score ∧
    cats doc !! "NOT_TOXIC" = Some not_toxic_score ∧
    r = prediction text toxic_score not_toxic_score.
Proof.
  rewrite predict_toxicity_cases.
  destruct (nlp_model st) as [nlp|]; [|discriminate].
  destruct (pipe nlp text) as [doc|e] eqn:Hpipe; [|discriminate].
  destruct (cats doc !! "TOXIC") as [ts|] eqn:Hts; [|discriminate].
  destruct (cats doc !! "NOT_TOXIC") as [ns|] eqn:Hns; [|discriminate].
  intros [= <- <- <-]. exists nlp, doc, ts, ns. auto.
Qed.

(** With a handle held, the model is called with [text]. *)
Lemma predict_toxicity_invokes (text : pyval) (st : LoadState) (nlp : Language) :
  nlp_model st = Some nlp →
  ModelCall text ∈ trace (predict_toxicity text st).
Proof.
  intros Hnlp. rewrite predict_toxicity_cases, Hnlp.
  destruct (pipe nlp text) as [doc|e]; [|apply list_elem_of_here].
  destruct (cats doc !! "TOXIC") as [ts|], (cats doc !! "NOT_TOXIC") as [ns|];
    apply list_elem_of_here.
Qed.

(** When the model scores both labels, the prediction is returned. *)
Lemma predict_toxicity_scores (text : pyval) (st : LoadState) (nlp : Language)
    (doc : Doc) (toxic_score not_toxic_score : float) :
  nlp_model st = Some nlp →
  pipe nlp text = Ok doc →
  cats doc !! "TOXIC" = Some toxic_score →
  cats doc !! "NOT_TOXIC" = Some not_toxic_score →
  predict_toxicity text st
    = (Ok (prediction text toxic_score not_toxic_score), st, [ModelCall text]).
Proof.
  intros Hnlp Hpipe Hts Hns.
  rewrite predict_toxicity_cases, Hnlp, Hpipe, Hts, Hns. reflexivity.
Qed.

(** ** The Request Handler *)

Section HandlerTheorems.
Variable json_loads : string → result pyval.
Variable json_dumps : pyval → string.
Variable w : World.

Lemma lambda_handler_with_text (event context : pyval) (st : LoadState)
    (d : list (string * pyval)) (v : pyval) :
  request_body json_loads event = Ok (PDict d) →
  dict_get "text" d = Some v →
  lambda_handler json_loads json_dumps w event context st =
    match load_model w st with
    | (Raise e, st1, t1) => server_error json_dumps e st1 t1
    | (Ok _, st1, t1) =>
        match predict_toxicity v st1 with
        | (Raise e, st2, t2) => server_error json_dumps e st2 (t1 ++ t2)%list
        | (Ok result, st2, t2) =>
            (Ok (response 200 (json_dumps result)), st2, (t1 ++ t2)%list)
        end
    end.
Proof.
  intros Hbody Htext. rewrite lambda_handler_cases, Hbody. simpl.
  rewrite Htext. reflexivity.
Qed.

(** Validation where the membership test is defined.  When the parsed body
    answers [False] to ['text' in body] (a dict without that key; also a
    list without that element, a string without that substring), the
    handler returns the 400 response whose body is the dump of
    [{'error': 'Missing required field: text'}], the globals are untouched,
    and nothing at all happened on the way: the trace is empty, whereas any
    call of [load_model] leaves one. *)
Theorem missing_text_is_client_error
    (event context : pyval) (st : LoadState) (body : pyval) :
  request_body json_loads event = Ok body →
  py_contains "text" body = Ok false →
  lambda_handler json_loads json_dumps w event context st
    = (Ok (response 400 (json_dumps missing_text_body)), st, []) ∧
  py_getitem (response 400 (json_dumps missing_text_body)) "statusCode"
    = Ok (PInt 400) ∧
  py_getitem missing_text_body "error" = Ok (PStr "Missing required field: text") ∧
  ∀ w0 st0, trace (load_model w0 st0) ≠ [].
Proof.
  intros Hbody Hlacks. rewrite lambda_handler_cases, Hbody, Hlacks.
  repeat split. exact load_model_trace_nonempty.
Qed.

(** C9.  Whatever the event, the handler returns: its outcome is one of the
    three response dicts, with status 200, 400 or 500, and with both
    headers. *)
Theorem lambda_handler_always_responds
    (event context : pyval) (st : LoadState) :
  ∃ (status : Z) (body : string) (headers : pyval),
    outcome (lambda_handler json_loads json_dumps w event context st)
      = Ok (response status body) ∧
    (status = 200 ∨ status = 400 ∨ status = 500)%Z ∧
    py_getitem (response status body) "statusCode" = Ok (PInt status) ∧
    py_getitem (response status body) "headers" = Ok headers ∧
    py_getitem headers "Content-Type" = Ok (PStr "application/json") ∧
    py_getitem headers "Access-Control-Allow-Origin" = Ok (PStr "*").
Proof.
  assert (∀ (status : Z) (body : string) (r : result pyval),
            r = Ok (response status body) →
            (status = 200 ∨ status = 400 ∨ status = 500)%Z →
            ∃ (status : Z) (body : string) (headers : pyval),
              r = Ok (response status body) ∧
              (status = 200 ∨ status = 400 ∨ status = 500)%Z ∧
              py_getitem (response status body) "statusCode" = Ok (PInt status) ∧
              py_getitem (response status body) "headers" = Ok headers ∧
              py_getitem headers "Content-Type" = Ok (PStr "application/json") ∧
              py_getitem headers "Access-Control-Allow-Origin" = Ok (PStr "*"))
    as Hshape.
  { intros status body r -> Hstatus.
    exists status, body,
      (PDict [("Content-Type", PStr "application/json");
              ("Access-Control-Allow-Origin", PStr "*")]).
    repeat split; assumption. }
  rewrite lambda_handler_cases. unfold server_error.
  destruct (request_body json_loads event) as [body|e];
    [|eapply Hshape; [reflexivity | auto]].
  destruct (py_contains "text" body) as [[|]|e];
    [| eapply Hshape; [reflexivity | auto] | eapply Hshape; [reflexivity | auto]].
  destruct (py_getitem body "text") as [text|e];
    [|eapply Hshape; [reflexivity | auto]].
  destruct (load_model w st) as [[[handle|e] st1] t1];
    [|eapply Hshape; [reflexivity | auto]].
  destruct (predict_toxicity text st1) as [[[result|e] st2] t2];
    eapply Hshape; (reflexivity || auto).
Qed.

(** C10.  When the parsed body is a dict with a ['text'] entry, whatever the
    value [v] under it, the handler answers 200 or 500, never 400; the model
    is called with no other argument than [v]; it is called with [v] as soon as
    the provisioner returns and leaves a handle; and when the model scores
    it, the response is the 200 one around the prediction for [v]. *)
Theorem text_value_is_forwarded_unchanged
    (event context : pyval) (st : LoadState)
    (d : list (string * pyval)) (v : pyval) :
  request_body json_loads event = Ok (PDict d) →
  dict_get "text" d = Some v →
  let r := lambda_handler json_loads json_dumps w event context st in
  (∃ (status : Z) (body : string),
     outcome r = Ok (response status body) ∧ (status = 200 ∨ status = 500)%Z) ∧
  (∀ x, ModelCall x ∈ trace r → x = v) ∧
  (∀ handle nlp,
     outcome (load_model w st) = Ok handle →
     nlp_model (final (load_model w st)) = Some nlp →
     ModelCall v ∈ trace r) ∧
  (∀ handle nlp doc toxic_score not_toxic_score,
     outcome (load_model w st) = Ok handle →
     nlp_model (final (load_model w st)) = Some nlp →
     pipe nlp v = Ok doc →
     cats doc !! "TOXIC" = Some toxic_score →
     cats doc !! "NOT_TOXIC" = Some not_toxic_score →
     outcome r = Ok (response 200
                       (json_dumps (prediction v toxic_score not_toxic_score)))).
Proof.
  intros Hbody Htext r. subst r.
  rewrite (lambda_handler_with_text event context st d v Hbody Htext).
  pose proof (load_model_no_call w st) as Hquiet.
  rewrite Forall_forall in Hquiet.
  destruct (load_model w st) as [[[handle|e] st1] t1].
  - pose proof (λ x, predict_toxicity_calls v x st1) as Hcalls.
    pose proof (predict_toxicity_invokes v st1) as Hinvokes.
    pose proof (predict_toxicity_scores v st1) as Hscores.
    unfold server_error, outcome, final, trace in *. simpl in *.
    destruct (predict_toxicity v st1) as [[[result|e] st2] t2]; simpl in *.
    + split; [eauto|]. split; [|split].
      * intros x Hin. apply elem_of_app in Hin as [Hin|Hin].
        -- apply Hquiet in Hin. discriminate.
        -- apply Hcalls. exact Hin.
      * intros _ nlp _ Hnlp. apply elem_of_app. right. eauto.
      * intros _ nlp doc ts ns _ Hnlp Hpipe Hts Hns.
        specialize (Hscores nlp doc ts ns Hnlp Hpipe Hts Hns).
        injection Hscores as -> _ _. reflexivity.
    + split; [eauto|]. split; [|split].
      * intros x Hin. apply elem_of_app in Hin as [Hin|Hin];
          [apply elem_of_app in Hin as [Hin|Hin]|].
        -- apply Hquiet in Hin. discriminate.
        -- apply Hcalls. exact Hin.
        -- in_trace Hin.
      * intros _ nlp _ Hnlp. apply elem_of_app. left.
        apply elem_of_app. right. eauto.
      * intros _ nlp doc ts ns _ Hnlp Hpipe Hts Hns.
        specialize (Hscores nlp doc ts ns Hnlp Hpipe Hts Hns). discriminate.
  - unfold server_error, outcome, final, trace in *. simpl in *.
    split; [eauto|]. split; [|split].
    + intros x Hin. apply elem_of_app in Hin as [Hin|Hin];
        [apply Hquiet in Hin; discriminate | in_trace Hin].
    + intros handle nlp Hok. discriminate.
    + intros handle nlp doc ts ns Hok. discriminate.
Qed.
End HandlerTheorems.


(** C5.  In every dict [predict_toxicity] returns, the three score entries
    are floats and [confidence] is [max(toxic_score, not_toxic_score)]: one
    of the two scores, and, when neither is a NaN, at least as large as
    both. *)
Theorem confidence_is_max_of_scores
    (text : pyval) (st st' : LoadState) (r : pyval) (t : list event) :
  predict_toxicity text st = (Ok r, st', t) →
  ∃ toxic_score not_toxic_score confidence : float,
    py_getitem r "toxic_score" = Ok (PFloat toxic_score) ∧
    py_getitem r "not_toxic_score" = Ok (PFloat not_toxic_score) ∧
    py_getitem r "confidence" = Ok (PFloat confidence) ∧
    confidence = py_max toxic_score not_toxic_score ∧
    (confidence = toxic_score ∨ confidence = not_toxic_score) ∧
    (is_nan toxic_score = false →
     is_nan not_toxic_score = false →
     (toxic_score <=? confidence)%float = true ∧
     (not_toxic_score <=? confidence)%float = true).
Proof.
  intros Hrun.
  destruct (predict_toxicity_Ok text st st' r t Hrun)
    as (nlp & doc & ts & ns & _ & _ & _ & _ & ->).
  exists ts, ns, (py_max ts ns).
  split; [reflexivity|]. split; [reflexivity|]. split; [reflexivity|].
  split; [reflexivity|]. split; [apply py_max_is_argument|].
  apply py_max_upper_bound.
Qed.

(** C5 for a model that scores 0.875 / 0.125. *)
Lemma confidence_is_max_of_scores_witness :
  ∃ toxic_score not_toxic_score confidence : float,
    py_getitem (prediction (PStr "hello") 0.875 0.125) "toxic_score"
      = Ok (PFloat toxic_score) ∧
    py_getitem (prediction (PStr "hello") 0.875 0.125) "not_toxic_score"
      = Ok (PFloat not_toxic_score) ∧
    py_getitem (prediction (PStr "hello") 0.875 0.125) "confidence"
      = Ok (PFloat confidence) ∧
    confidence = py_max toxic_score not_toxic_score ∧
    (confidence = toxic_score ∨ confidence = not_toxic_score) ∧
    (is_nan toxic_score = false →
     is_nan not_toxic_score = false →
     (toxic_score <=? confidence)%float = true ∧
     (not_toxic_score <=? confidence)%float = true).
Proof.
  apply (confidence_is_max_of_scores (PStr "hello") loaded_state loaded_state
           (prediction (PStr "hello") 0.875 0.125) [ModelCall (PStr "hello")]).
  vm_compute. reflexivity.
Defined.

(** C6.  In every dict [predict_toxicity] returns, [is_toxic] is a bool,
    [toxic_score] a float, and the bool is [True] exactly when
    [toxic_score >= 0.5]. *)
Theorem is_toxic_iff_score_at_least_half
    (text : pyval) (st st' : LoadState) (r : pyval) (t : list event) :
  predict_toxicity text st = (Ok r, st', t) →
  ∃ (is_toxic : bool) (toxic_score : float),
    py_getitem r "is_toxic" = Ok (PBool is_toxic) ∧
    py_getitem r "toxic_score" = Ok (PFloat toxic_score) ∧
    (is_toxic = true ↔ (0.5 <=? toxic_score)%float = true).
Proof.
  intros Hrun.
  destruct (predict_toxicity_Ok text st st' r t Hrun)
    as (nlp & doc & ts & ns & _ & _ & _ & _ & ->).
  exists (0.5 <=? ts)%float, ts.
  split; [reflexivity|]. split; [reflexivity|]. reflexivity.
Qed.

(** C6 for a model that scores 0.875 / 0.125. *)
Lemma is_toxic_iff_score_at_least_half_witness :
  ∃ (is_toxic : bool) (toxic_score : float),
    py_getitem (prediction (PStr "hello") 0.875 0.125) "is_toxic"
      = Ok (PBool is_toxic) ∧
    py_getitem (prediction (PStr "hello") 0.875 0.125) "toxic_score"
      = Ok (PFloat toxic_score) ∧
    (is_toxic = true ↔ (0.5 <=? toxic_score)%float = true).
Proof.
  apply (is_toxic_iff_score_at_least_half (PStr "hello") loaded_state loaded_state
           (prediction (PStr "hello") 0.875 0.125) [ModelCall (PStr "hello")]).
  vm_compute. reflexivity.
Defined.

(** The same for a direct invocation with [{'user': 'u1'}] in a fresh process. *)
Lemma missing_text_is_client_error_witness :
  lambda_handler sample_loads sample_dumps cold_world
    (PDict [("user", PStr "u1")]) PNone initial
    = (Ok (response 400 (sample_dumps missing_text_body)), initial, []) ∧
  py_getitem (response 400 (sample_dumps missing_text_body)) "statusCode"
    = Ok (PInt 400) ∧
  py_getitem missing_text_body "error" = Ok (PStr "Missing required field: text") ∧
  ∀ w0 st0, trace (load_model w0 st0) ≠ [].
Proof.
  apply (missing_text_is_client_error sample_loads sample_dumps cold_world
           (PDict [("user", PStr "u1")]) PNone initial
           (PDict [("user", PStr "u1")])); reflexivity.
Defined.

(** C10 for a direct invocation with [{'text': None}] in a fresh process. *)
Lemma text_value_is_forwarded_unchanged_witness :
  let r := lambda_handler sample_loads sample_dumps cold_world
             (PDict [("text", PNone)]) PNone initial in
  (∃ (status : Z) (body : string),
     outcome r = Ok (response status body) ∧ (status = 200 ∨ status = 500)%Z) ∧
  (∀ x, ModelCall x ∈ trace r → x = PNone) ∧
  (∀ handle nlp,
     outcome (load_model cold_world initial) = Ok handle →
     nlp_model (final (load_model cold_world initial)) = Some nlp →
     ModelCall PNone ∈ trace r) ∧
  (∀ handle nlp doc toxic_score not_toxic_score,
     outcome (load_model cold_world initial) = Ok handle →
     nlp_model (final (load_model cold_world initial)) = Some nlp →
     pipe nlp PNone = Ok doc →
     cats doc !! "TOXIC" = Some toxic_score →
     cats doc !! "NOT_TOXIC" = Some not_toxic_score →
     outcome r = Ok (response 200
                       (sample_dumps (prediction PNone toxic_score not_toxic_score)))).
Proof.
  apply (text_value_is_forwarded_unchanged sample_loads sample_dumps cold_world
           (PDict [("text", PNone)]) PNone initial [("text", PNone)] PNone);
    reflexivity.
Defined.

(** ** Requests end to end *)

(** A request served on the warm-start path: the provisioner reports
    success, no handle is held, and the handler answers 500 with
    [Model not loaded]. *)
Lemma warm_start_request_is_server_error :
  lambda_handler sample_loads sample_dumps warm_world
    (PDict [("text", PStr "hello")]) PNone initial
  = (Ok (response 500
           (sample_dumps (server_error_body (Exception "Model not loaded")))),
     {| nlp_model := None; model_loaded := true |},
     [OsPathExists marker;
      Print "Found existing model in /tmp";
      Print "Model loaded successfully!";
      Print "Lambda error: Model not loaded"]).
Proof. reflexivity. Qed.

(** The same request on a cold start with a reachable bucket is served. *)
Lemma cold_start_request_is_served :
  outcome (lambda_handler sample_loads sample_dumps cold_world
             (PDict [("text", PStr "hello")]) PNone initial)
  = Ok (response 200 (sample_dumps (prediction (PStr "hello") 0.875 0.125))).
Proof. vm_compute. reflexivity. Qed.

(** An envelope whose body parses to a dict without ['text']. *)
Lemma empty_envelope_is_client_error :
  lambda_handler sample_loads sample_dumps cold_world
    (PDict [("body", PStr "{}")]) PNone initial
  = (Ok (response 400 (sample_dumps missing_text_body)), initial, []).
Proof. reflexivity. Qed.

(** An envelope whose body parses to [None]: the membership test itself
    raises, and the handler answers 500 without calling the provisioner. *)
Lemma null_envelope_is_server_error :
  lambda_handler sample_loads sample_dumps cold_world
    (PDict [("body", PStr "null")]) PNone initial
  = (Ok (response 500
           (sample_dumps (server_error_body
              (TypeError "argument of type 'NoneType' is not iterable")))),
     initial,
     [Print "Lambda error: argument of type 'NoneType' is not iterable"]).
Proof. reflexivity. Qed.

(** Whenever the membership test of line 109 or the lookup of line 121
    raises on the parsed body, the handler answers 500 with that exception
    and has called nothing. *)
Lemma body_that_raises_is_server_error
    (json_loads : string → result pyval) (json_dumps : pyval → string)
    (w : World) (event context : pyval) (st : LoadState) (body : pyval) (e : exn) :
  request_body json_loads event = Ok body →
  py_contains "text" body = Raise e ∨
  (py_contains "text" body = Ok true ∧ py_getitem body "text" = Raise e) →
  lambda_handler json_loads json_dumps w event context st
    = (Ok (response 500 (json_dumps (server_error_body e))), st,
       [Print ("Lambda error: " +:+ str_exn e)]).
Proof.
  intros Hbody [Hin | [Hin Hget]]; rewrite lambda_handler_cases, Hbody, Hin;
    [|rewrite Hget]; reflexivity.
Qed.

(** C4.  Requests whose parsed body has no ['text'] field and that are
    not answered 400.  A body that is [None] or a number makes the
    membership test of line 109 raise; a string or a list that merely
    contains ['text'] passes it, and line 121 raises.  Each time the
    handler answers 500 with the interpreter's message; the provisioner is
    not called and the globals are untouched. *)
Theorem body_without_text_field_is_server_error :
  request_body sample_loads (PDict [("body", PStr "null")]) = Ok PNone ∧
  lambda_handler sample_loads sample_dumps cold_world
    (PDict [("body", PStr "null")]) PNone initial
  = (Ok (response 500
           (sample_dumps (server_error_body
              (TypeError "argument of type 'NoneType' is not iterable")))),
     initial,
     [Print "Lambda error: argument of type 'NoneType' is not iterable"]) ∧
  request_body sample_loads (PDict [("body", PStr "5")]) = Ok (PInt 5) ∧
  lambda_handler sample_loads sample_dumps cold_world
    (PDict [("body", PStr "5")]) PNone initial
  = (Ok (response 500
           (sample_dumps (server_error_body
              (TypeError "argument of type 'int' is not iterable")))),
     initial,
     [Print "Lambda error: argument of type 'int' is not iterable"]) ∧
  request_body sample_loads (PStr "some text") = Ok (PStr "some text") ∧
  lambda_handler sample_loads sample_dumps cold_world
    (PStr "some text") PNone initial
  = (Ok (response 500
           (sample_dumps (server_error_body
              (TypeError "string indices must be integers, not 'str'")))),
     initial,
     [Print "Lambda error: string indices must be integers, not 'str'"]) ∧
  request_body sample_loads (PList [PStr "text"]) = Ok (PList [PStr "text"]) ∧
  lambda_handler sample_loads sample_dumps cold_world
    (PList [PStr "text"]) PNone initial
  = (Ok (response 500
           (sample_dumps (server_error_body
              (TypeError "list indices must be integers or slices, not str")))),
     initial,
     [Print "Lambda error: list indices must be integers or slices, not str"]).
Proof. repeat split; reflexivity. Qed.

(** ** Where the model is downloaded and where it is looked for *)

Lemma append_cons (c : ascii) (s x : string) :
  String c s +:+ x = String c (s +:+ x).
Proof. reflexivity. Qed.

Lemma append_length (s x : string) :
  String.length (s +:+ x) = String.length s + String.length x.
Proof.
  induction s as [|c s IH]; [reflexivity|].
  rewrite append_cons. simpl. rewrite IH. reflexivity.
Qed.

Lemma append_right_cancel (s1 s2 x : string) :
  s1 +:+ x = s2 +:+ x → s1 = s2.
Proof.
  revert s2. induction s1 as [|c s1 IH]; intros [|c' s2] Heq.
  - reflexivity.
  - apply (f_equal String.length) in Heq.
    rewrite append_cons in Heq. simpl in Heq.
    rewrite !append_length in Heq. simpl in Heq. lia.
  - apply (f_equal String.length) in Heq.
    rewrite append_cons in Heq. simpl in Heq.
    rewrite !append_length in Heq. simpl in Heq. lia.
  - rewrite !append_cons in Heq. injection Heq as -> Heq.
    f_equal. apply IH. exact Heq.
Qed.

(** The two directories coincide only if [mkdtemp] answered [/tmp] itself. *)
Lemma download_dir_is_probe_dir (temp_dir : string) :
  download_dir temp_dir = probe_dir →
  temp_dir = "/tmp" ∨ temp_dir = "/tmp/".
Proof.
  unfold download_dir, os_path_join.
  change (startswith "toxic_chat_model_full" "/") with false. cbv iota.
  destruct (String.eqb temp_dir "" || endswith temp_dir "/"); intros Heq.
  - right.
    change probe_dir with ("/tmp/" +:+ "toxic_chat_model_full") in Heq.
    exact (append_right_cancel _ _ _ Heq).
  - left.
    change probe_dir with ("/tmp" +:+ "/" +:+ "toxic_chat_model_full") in Heq.
    exact (append_right_cancel _ _ _ Heq).
Qed.

(** No directory [mkdtemp] can create makes them coincide. *)
Lemma mkdtemp_download_dir_ne_probe_dir (dir name : string) :
  String.length name = 8 →
  download_dir (mkdtemp_path dir name) ≠ probe_dir.
Proof.
  intros Hname Heq.
  assert (11 ≤ String.length (mkdtemp_path dir name))%nat as Hlen.
  { unfold mkdtemp_path, os_path_join.
    change (startswith ("tmp" +:+ name) "/") with false. cbv iota.
    destruct (String.eqb dir "" || endswith dir "/");
      rewrite !append_length, Hname; simpl; lia. }
  apply download_dir_is_probe_dir in Heq as [Heq | Heq];
    rewrite Heq in Hlen; simpl in Hlen; lia.
Qed.

(** C8.  On a cold start where [mkdtemp] answers [/tmp/tmpk3x9_q2a], the
    objects are mirrored into, and the model is loaded from,
    [/tmp/tmpk3x9_q2a/toxic_chat_model_full], while the marker file was
    looked for under [/tmp/toxic_chat_model_full]: two different
    directories. *)
Theorem download_dir_is_not_probe_dir :
  tempfile_mkdtemp cold_world = Ok "/tmp/tmpk3x9_q2a" ∧
  trace (load_model cold_world initial) =
    [OsPathExists (os_path_join probe_dir "config.cfg");
     Print "Model not found locally, downloading from S3...";
     Boto3Client;
     Mkdtemp;
     OsMakedirs (download_dir "/tmp/tmpk3x9_q2a");
     ListObjectsV2 "toxic-chat-classifier" "toxic_chat_model_full/";
     OsMakedirs (download_dir "/tmp/tmpk3x9_q2a");
     DownloadFile "toxic-chat-classifier" "toxic_chat_model_full/config.cfg"
       (os_path_join (download_dir "/tmp/tmpk3x9_q2a") "config.cfg");
     OsMakedirs (os_path_join (download_dir "/tmp/tmpk3x9_q2a") "textcat");
     DownloadFile "toxic-chat-classifier" "toxic_chat_model_full/textcat/model"
       (os_path_join (download_dir "/tmp/tmpk3x9_q2a") "textcat/model");
     SpacyLoad (download_dir "/tmp/tmpk3x9_q2a");
     Print "Model loaded successfully!"] ∧
  download_dir "/tmp/tmpk3x9_q2a" = "/tmp/tmpk3x9_q2a/toxic_chat_model_full" ∧
  probe_dir = "/tmp/toxic_chat_model_full" ∧
  download_dir "/tmp/tmpk3x9_q2a" ≠ probe_dir.
Proof.
  split; [reflexivity|]. split; [reflexivity|].
  split; [reflexivity|]. split; [reflexivity|].
  discriminate.
Qed.

(** * Further properties *)

(** ** The remote fetch, object by object *)

Lemma downloaded_keys_app (t1 t2 : list event) :
  downloaded_keys (t1 ++ t2) = (downloaded_keys t1 ++ downloaded_keys t2)%list.
Proof.
  induction t1 as [|ev t1 IH]; [reflexivity|].
  destruct ev; simpl; rewrite ?IH; reflexivity.
Qed.

Lemma loaded_paths_app (t1 t2 : list event) :
  loaded_paths (t1 ++ t2) = (loaded_paths t1 ++ loaded_paths t2)%list.
Proof.
  induction t1 as [|ev t1 IH]; [reflexivity|].
  destruct ev; simpl; rewrite ?IH; reflexivity.
Qed.

(** One turn of the loop: what it returns decides what it did. *)
Lemma download_object_cases (w : World) (mp k : string) (st : LoadState) :
  let r := download_object w s3_bucket s3_prefix mp k st in
  loaded_paths (trace r) = [] ∧
  match outcome r with
  | Ok _ => object_fetched w mp k ∧
            downloaded_keys (trace r) = (if is_file_key k then [k] else [])
  | Raise _ => is_file_key k = true ∧
               (downloaded_keys (trace r) = [] ∨ downloaded_keys (trace r) = [k])
  end.
Proof.
  unfold download_object, object_fetched, local_file_path, is_file_key.
  destruct (endswith k "/") eqn:Hdir; simpl.
  - split; [reflexivity|]. split; [left; reflexivity | reflexivity].
  - run_monad.
    destruct (os_makedirs w _) as [[]|e] eqn:Hmk; simpl.
    + destruct (download_file w _ _ _) as [[]|e] eqn:Hdl; simpl.
      * split; [reflexivity|]. split; [right; split; reflexivity | reflexivity].
      * split; [reflexivity|]. split; [reflexivity | right; reflexivity].
    + split; [reflexivity|]. split; [reflexivity | left; reflexivity].
Qed.

(** The loop, when it returns: every key was passed over, and the file keys
    were downloaded once each, in the order of the listing. *)
Lemma for_each_download_Ok (w : World) (mp : string) (ks : list string)
    (st : LoadState) :
  let r := for_each ks (download_object w s3_bucket s3_prefix mp) st in
  loaded_paths (trace r) = [] ∧
  (outcome r = Ok tt →
   Forall (object_fetched w mp) ks ∧
   downloaded_keys (trace r) = List.filter is_file_key ks).
Proof.
  revert st. induction ks as [|k ks IH]; intros st; simpl.
  - split; [reflexivity|]. intros _. split; [constructor | reflexivity].
  - unfold mbind, M_bind.
    pose proof (download_object_cases w mp k st) as Hk.
    pose proof (download_object_final w s3_bucket s3_prefix mp k st) as Hst.
    destruct (download_object w _ _ mp k st) as [[[[]|e] st1] t1];
      unfold outcome, final, trace in *; simpl in *; subst.
    + destruct Hk as (Hno & Hfetched & Hkeys).
      specialize (IH st).
      destruct (for_each ks _ st) as [[r2 st2] t2]; simpl in *.
      destruct IH as (Hno2 & IH).
      rewrite loaded_paths_app, Hno, Hno2. split; [reflexivity|].
      intros Hok. destruct (IH Hok) as (Hall & Hkeys2).
      split; [constructor; assumption|].
      rewrite downloaded_keys_app, Hkeys, Hkeys2.
      destruct (is_file_key k); reflexivity.
    + destruct Hk as (Hno & _). split; [exact Hno | discriminate].
Qed.

(** The fetch after a listing that returned [keys]: the four set-up events,
    the loop, and [spacy.load] if the loop returns. *)
Lemma load_model_from_s3_listed (w : World) (st : LoadState)
    (temp_dir : string) (keys : list string) :
  fetch_ready w temp_dir →
  list_objects_v2 w s3_bucket s3_prefix = Ok (Some keys) →
  load_model_from_s3 w st =
    let d := download_dir temp_dir in
    let pre := [Boto3Client; Mkdtemp; OsMakedirs d; ListObjectsV2 s3_bucket s3_prefix] in
    match for_each keys (download_object w s3_bucket s3_prefix d) st with
    | (Ok _, _, t) =>
        match spacy_load w d with
        | Ok nlp => (Ok nlp, st, (pre ++ t ++ [SpacyLoad d])%list)
        | Raise e =>
            (Raise e, st,
             (pre ++ t ++ [SpacyLoad d; Print ("Error loading model: " +:+ str_exn e)])%list)
        end
    | (Raise e, _, t) =>
        (Raise e, st, (pre ++ t ++ [Print ("Error loading model: " +:+ str_exn e)])%list)
    end.
Proof.
  intros (Hclient & Htmp & Hmk) Hlist. unfold download_dir in *.
  unfold s3_bucket, s3_prefix in *.
  pose proof (for_each_final
    (download_object w "toxic-chat-classifier" "toxic_chat_model_full/"
       (os_path_join temp_dir "toxic_chat_model_full")) keys st
    (λ x st0, download_object_final w _ _ _ x st0)) as Hloop.
  unfold load_model_from_s3. run_monad. rewrite Hclient, Htmp, Hmk, Hlist. simpl.
  unfold final in Hloop.
  destruct (for_each keys _ st) as [[[[]|e] st1] t]; simpl in *; subst.
  - destruct (spacy_load w _) as [nlp|e]; simpl.
    + reflexivity.
    + rewrite <- app_assoc. reflexivity.
  - reflexivity.
Qed.

(** X1.  [spacy.load] is reached only after a complete download: whenever
    the fetch calls it, it is on the download directory under the directory
    [mkdtemp] returned, every key of the listing was passed over
    successfully, the file keys were downloaded once each in the order of
    the listing, and it is the only [spacy.load] of the run. *)
Theorem model_is_loaded_only_after_complete_download
    (w : World) (st : LoadState) (path : string) :
  path ∈ loaded_paths (trace (load_model_from_s3 w st)) →
  ∃ (temp_dir : string) (keys : list string),
    tempfile_mkdtemp w = Ok temp_dir ∧
    path = download_dir temp_dir ∧
    list_objects_v2 w s3_bucket s3_prefix = Ok (Some keys) ∧
    Forall (object_fetched w (download_dir temp_dir)) keys ∧
    downloaded_keys (trace (load_model_from_s3 w st)) = List.filter is_file_key keys ∧
    loaded_paths (trace (load_model_from_s3 w st)) = [path].
Proof.
  destruct (boto3_client w) as [[]|e0] eqn:Hclient;
    [|unfold load_model_from_s3; run_monad; rewrite Hclient; simpl;
      intros Hin; apply elem_of_nil in Hin; contradiction].
  destruct (tempfile_mkdtemp w) as [temp_dir|e0] eqn:Htmp;
    [|unfold load_model_from_s3; run_monad; rewrite Hclient, Htmp; simpl;
      intros Hin; apply elem_of_nil in Hin; contradiction].
  destruct (os_makedirs w (download_dir temp_dir)) as [[]|e0] eqn:Hmk;
    [|unfold load_model_from_s3, download_dir in *; run_monad;
      rewrite Hclient, Htmp, Hmk; simpl;
      intros Hin; apply elem_of_nil in Hin; contradiction].
  destruct (list_objects_v2 w s3_bucket s3_prefix) as [[keys|]|e0] eqn:Hlist;
    [| unfold load_model_from_s3, download_dir, s3_bucket, s3_prefix in *; run_monad;
       rewrite Hclient, Htmp, Hmk, Hlist; simpl;
       intros Hin; apply elem_of_nil in Hin; contradiction
     | unfold load_model_from_s3, download_dir, s3_bucket, s3_prefix in *; run_monad;
       rewrite Hclient, Htmp, Hmk, Hlist; simpl;
       intros Hin; apply elem_of_nil in Hin; contradiction].
  rewrite (load_model_from_s3_listed w st temp_dir keys) by (repeat split; assumption).
  pose proof (for_each_download_Ok w (download_dir temp_dir) keys st) as Hloop.
  unfold outcome, trace in *. simpl in *.
  destruct (for_each keys _ st) as [[[[]|e] st1] t]; simpl in *.
  - destruct Hloop as (Hno & Hok). destruct (Hok eq_refl) as (Hall & Hkeys).
    destruct (spacy_load w (download_dir temp_dir)) as [nlp|e]; simpl;
      rewrite !loaded_paths_app, Hno; simpl;
      intros Hin; apply list_elem_of_singleton in Hin; subst path;
      exists temp_dir, keys;
      rewrite !downloaded_keys_app, Hkeys; simpl; rewrite app_nil_r;
      repeat split; auto.
  - destruct Hloop as (Hno & _).
    rewrite !loaded_paths_app, Hno. simpl.
    intros Hin. apply elem_of_nil in Hin. contradiction.
Qed.

Lemma for_each_download_fails (w : World) (mp : string)
    (before : list string) (key : string) (after : list string)
    (e : exn) (st : LoadState) :
  Forall (object_fetched w mp) before →
  endswith key "/" = false →
  os_makedirs w (os_path_dirname (local_file_path mp key)) = Ok tt →
  download_file w s3_bucket key (local_file_path mp key) = Raise e →
  let r := for_each (before ++ key :: after)%list
             (download_object w s3_bucket s3_prefix mp) st in
  outcome r = Raise e ∧
  downloaded_keys (trace r) = (List.filter is_file_key before ++ [key])%list.
Proof.
  intros Hall Hfile Hmk Hdl. revert st.
  induction Hall as [|k ks Hk _ IH]; intros st.
  - simpl. unfold mbind, M_bind, download_object, local_file_path in *.
    rewrite Hfile. run_monad. rewrite Hmk, Hdl. simpl. split; reflexivity.
  - simpl. unfold mbind, M_bind.
    pose proof (download_object_cases w mp k st) as Hcases.
    pose proof (download_object_fetched w mp k st Hk) as Hout.
    pose proof (download_object_final w s3_bucket s3_prefix mp k st) as Hst.
    destruct (download_object w _ _ mp k st) as [[r st1] t1].
    unfold outcome, final, trace in *. simpl in *. subst.
    destruct Hcases as (_ & _ & Hkeys).
    specialize (IH st).
    destruct (for_each (ks ++ key :: after)%list _ st) as [[r2 st2] t2].
    simpl in *. destruct IH as (-> & Hkeys2).
    split; [reflexivity|].
    rewrite downloaded_keys_app, Hkeys, Hkeys2.
    destruct (is_file_key k); reflexivity.
Qed.

Lemma for_each_folders (w : World) (mp : string) (keys : list string)
    (st : LoadState) :
  Forall (λ key, endswith key "/" = true) keys →
  for_each keys (download_object w s3_bucket s3_prefix mp) st = (Ok tt, st, []).
Proof.
  intros Hall. induction Hall as [|k ks Hk _ IH]; [reflexivity|].
  simpl. unfold mbind, M_bind, download_object at 1. rewrite Hk. simpl.
  unfold mret, M_ret. rewrite IH. reflexivity.
Qed.

(** X2.  A download that raises ends the fetch there: the exception leaves
    [load_model_from_s3] as it is, the keys after the failing one are never
    requested, [spacy.load] is not called, and the last line printed is the
    error. *)
Theorem failed_download_ends_the_fetch
    (w : World) (st : LoadState) (temp_dir : string)
    (before : list string) (key : string) (after : list string) (e : exn) :
  fetch_ready w temp_dir →
  list_objects_v2 w s3_bucket s3_prefix = Ok (Some (before ++ key :: after)%list) →
  Forall (object_fetched w (download_dir temp_dir)) before →
  endswith key "/" = false →
  os_makedirs w (os_path_dirname (local_file_path (download_dir temp_dir) key)) = Ok tt →
  download_file w s3_bucket key (local_file_path (download_dir temp_dir) key) = Raise e →
  let r := load_model_from_s3 w st in
  outcome r = Raise e ∧
  downloaded_keys (trace r) = (List.filter is_file_key before ++ [key])%list ∧
  loaded_paths (trace r) = [] ∧
  last (trace r) = Some (Print ("Error loading model: " +:+ str_exn e)).
Proof.
  intros Hready Hlist Hall Hfile Hmk Hdl.
  rewrite (load_model_from_s3_listed w st temp_dir _ Hready Hlist).
  pose proof (for_each_download_fails w _ before key after e st Hall Hfile Hmk Hdl)
    as Hloop.
  pose proof (for_each_download_Ok w (download_dir temp_dir)
                (before ++ key :: after)%list st) as (Hno & _).
  unfold outcome, trace in *. simpl in *.
  destruct (for_each (before ++ key :: after)%list _ st) as [[r st1] t].
  simpl in *. destruct Hloop as (-> & Hkeys). simpl.
  split; [reflexivity|]. split; [|split].
  - rewrite downloaded_keys_app, Hkeys. simpl. rewrite app_nil_r. reflexivity.
  - rewrite loaded_paths_app, Hno. reflexivity.
  - rewrite !app_comm_cons. apply last_snoc.
Qed.

(** X3.  A listing whose ['Contents'] holds no file (it is empty, or has
    folder entries only) is not the "No files found" case: nothing is
    downloaded and the fetch goes straight to [spacy.load] on the empty
    directory, whose result or exception is the fetch's. *)
Theorem listing_without_files_still_loads
    (w : World) (st : LoadState) (temp_dir : string) (keys : list string) :
  fetch_ready w temp_dir →
  list_objects_v2 w s3_bucket s3_prefix = Ok (Some keys) →
  Forall (λ key, endswith key "/" = true) keys →
  let d := download_dir temp_dir in
  let r := load_model_from_s3 w st in
  outcome r = spacy_load w d ∧
  final r = st ∧
  ∃ log, trace r = ([Boto3Client; Mkdtemp; OsMakedirs d;
                     ListObjectsV2 s3_bucket s3_prefix; SpacyLoad d] ++ log)%list ∧
         downloaded_keys (trace r) = [] ∧
         (log = [] ∨ ∃ e, spacy_load w d = Raise e ∧
                          log = [Print ("Error loading model: " +:+ str_exn e)]).
Proof.
  intros Hready Hlist Hall d r. subst d r.
  rewrite (load_model_from_s3_listed w st temp_dir keys Hready Hlist).
  simpl. rewrite (for_each_folders w _ keys st Hall).
  destruct (spacy_load w (download_dir temp_dir)) as [nlp|e]; simpl.
  - split; [reflexivity|]. split; [reflexivity|]. exists []. auto.
  - split; [reflexivity|]. split; [reflexivity|].
    exists [Print ("Error loading model: " +:+ str_exn e)].
    split; [reflexivity|]. split; [reflexivity|]. right. eauto.
Qed.

(** ** The provisioner across calls *)

(** X4.  An exception that leaves [load_model] is the last thing it
    printed. *)
Theorem load_model_logs_what_it_raises (w : World) (st : LoadState) (e : exn) :
  outcome (load_model w st) = Raise e →
  last (trace (load_model w st))
    = Some (Print ("Error loading model: " +:+ str_exn e)).
Proof.
  intros Hraise.
  destruct (cache_hit st) eqn:Hhit.
  - rewrite load_model_cache_hit in Hraise by exact Hhit. discriminate.
  - destruct (os_path_exists w marker) eqn:Hfound.
    + rewrite load_model_marker_present in Hraise by assumption. discriminate.
    + rewrite load_model_marker_absent in * by assumption.
      destruct (load_model_from_s3 w st) as [[[nlp|e'] st1] t]; [discriminate|].
      unfold outcome, trace in *. simpl in *. injection Hraise as ->.
      rewrite !app_comm_cons. apply last_snoc.
Qed.

Lemma load_model_keeps_handle_flagged (w : World) (st : LoadState) :
  handle_flagged st = true → handle_flagged (final (load_model w st)) = true.
Proof.
  unfold handle_flagged. intros Hst.
  destruct (cache_hit st) eqn:Hhit.
  - rewrite load_model_cache_hit by exact Hhit. exact Hst.
  - destruct (os_path_exists w marker) eqn:Hfound.
    + rewrite load_model_marker_present by assumption.
      unfold final. simpl. destruct (nlp_model st); reflexivity.
    + rewrite load_model_marker_absent by assumption.
      destruct (load_model_from_s3 w st) as [[[nlp|e] st1] t];
        [reflexivity | exact Hst].
Qed.

(** X5.  No call of [load_model] clears a global: a set flag stays set, a
    held handle stays held; and a call that returns has set the flag and
    returns whatever handle the global then holds. *)
Theorem load_model_never_clears_the_globals (w : World) (st : LoadState) :
  let r := load_model w st in
  (model_loaded st = true → model_loaded (final r) = true) ∧
  (nlp_model st ≠ None → nlp_model (final r) ≠ None) ∧
  (∀ handle, outcome r = Ok handle →
     model_loaded (final r) = true ∧ handle = nlp_model (final r)).
Proof.
  destruct (cache_hit st) eqn:Hhit.
  - rewrite load_model_cache_hit by exact Hhit.
    unfold cache_hit in Hhit. apply andb_true_iff in Hhit as [Hflag _].
    unfold outcome, final. simpl. repeat split; auto; congruence.
  - destruct (os_path_exists w marker) eqn:Hfound.
    + rewrite load_model_marker_present by assumption.
      unfold outcome, final. simpl. repeat split; auto; congruence.
    + rewrite load_model_marker_absent by assumption.
      destruct (load_model_from_s3 w st) as [[[nlp|e] st1] t];
        unfold outcome, final; simpl; repeat split; auto; congruence.
Qed.

(** X6.  A failed load is made good by the next call: after a call that
    raised, a call that finds no marker file and whose fetch returns [nlp]
    returns [nlp] and leaves it held with the flag set, and the call after
    that, in whatever world, is a cache hit on [nlp]. *)
Theorem failed_load_is_recovered_by_the_next_call
    (w1 w2 w3 : World) (st : LoadState) (e : exn) (nlp : Language) :
  outcome (load_model w1 st) = Raise e →
  os_path_exists w2 marker = false →
  outcome (load_model_from_s3 w2 st) = Ok nlp →
  let st1 := final (load_model w1 st) in
  let st2 := final (load_model w2 st1) in
  outcome (load_model w2 st1) = Ok (Some nlp) ∧
  st2 = {| nlp_model := Some nlp; model_loaded := true |} ∧
  load_model w3 st2 = (Ok (Some nlp), st2, [Print "Using cached model"]).
Proof.
  intros Hraise Habsent Hfetch st1 st2. subst st1 st2.
  destruct (load_model_raise_final w1 st e Hraise) as [-> Hmiss].
  destruct (load_model_fetch_loads w2 st nlp Hmiss Habsent Hfetch) as [Hout ->].
  split; [exact Hout|]. split; [reflexivity|].
  apply (load_model_cache_hit w3). reflexivity.
Qed.

(** X6 with the bucket unreachable, then back, then unreachable again. *)
Lemma failed_load_is_recovered_by_the_next_call_witness :
  let st1 := final (load_model offline_world initial) in
  let st2 := final (load_model cold_world st1) in
  outcome (load_model cold_world st1) = Ok (Some (constant_model 0.875 0.125)) ∧
  st2 = {| nlp_model := Some (constant_model 0.875 0.125); model_loaded := true |} ∧
  load_model offline_world st2
    = (Ok (Some (constant_model 0.875 0.125)), st2, [Print "Using cached model"]).
Proof.
  apply (failed_load_is_recovered_by_the_next_call
           offline_world cold_world offline_world initial
           (ExternalError "EndpointConnectionError" "unreachable")
           (constant_model 0.875 0.125)); reflexivity.
Defined.

(** ** Requests *)

Section HandlerRuns.
Variable json_loads : string → result pyval.
Variable json_dumps : pyval → string.
Variable w : World.

Lemma lambda_handler_text (event context : pyval) (st : LoadState) (v : pyval) :
  request_text json_loads event = Some v →
  lambda_handler json_loads json_dumps w event context st =
    match load_model w st with
    | (Raise e, st1, t1) => server_error json_dumps e st1 t1
    | (Ok _, st1, t1) =>
        match predict_toxicity v st1 with
        | (Raise e, st2, t2) => server_error json_dumps e st2 (t1 ++ t2)%list
        | (Ok result, st2, t2) =>
            (Ok (response 200 (json_dumps result)), st2, (t1 ++ t2)%list)
        end
    end.
Proof.
  unfold request_text. intros Htext. rewrite lambda_handler_cases.
  destruct (request_body json_loads event) as [body|e]; [|discriminate].
  destruct (py_contains "text" body) as [[|]|e]; try discriminate.
  destruct (py_getitem body "text") as [text|e]; [|discriminate].
  injection Htext as ->. reflexivity.
Qed.

Lemma lambda_handler_no_text (event context : pyval) (st : LoadState) :
  request_text json_loads event = None →
  ∃ (status : Z) (body : string) (log : events),
    lambda_handler json_loads json_dumps w event context st
      = (Ok (response status body), st, log) ∧
    (status = 400 ∨ status = 500)%Z ∧
    Forall (λ ev, ∃ line, ev = Print line) log.
Proof.
  unfold request_text. intros Htext. rewrite lambda_handler_cases.
  unfold server_error.
  destruct (request_body json_loads event) as [body|e];
    [|eexists _, _, _; split; [reflexivity|]; split; [auto|]; repeat constructor; eauto].
  destruct (py_contains "text" body) as [[|]|e];
    [| eexists _, _, _; split; [reflexivity|]; split; [auto|]; repeat constructor; eauto
     | eexists _, _, _; split; [reflexivity|]; split; [auto|]; repeat constructor; eauto].
  destruct (py_getitem body "text") as [text|e]; [discriminate|].
  eexists _, _, _; split; [reflexivity|]; split; [auto|]; repeat constructor; eauto.
Qed.

Lemma lambda_handler_final (event context : pyval) (st : LoadState) :
  final (lambda_handler json_loads json_dumps w event context st) =
    match request_text json_loads event with
    | Some _ => final (load_model w st)
    | None => st
    end.
Proof.
  destruct (request_text json_loads event) as [v|] eqn:Htext.
  - rewrite (lambda_handler_text event context st v Htext).
    unfold server_error, final.
    destruct (load_model w st) as [[[handle|e] st1] t1]; simpl; [|reflexivity].
    pose proof (predict_toxicity_final v st1) as Hst. unfold final in Hst.
    destruct (predict_toxicity v st1) as [[[result|e] st2] t2]; simpl in *; auto.
  - destruct (lambda_handler_no_text event context st Htext)
      as (status & body & log & -> & _). reflexivity.
Qed.

(** X7.  While the marker file is there and no handle is held, a request
    with a text is answered 500 "Model not loaded": the provisioner probes
    the marker, calls neither the bucket nor [spacy.load], the model is not
    called, and the globals are left with the flag set and still no handle,
    so the next request fares the same. *)
Theorem request_on_warm_start_without_handle_fails
    (event context : pyval) (st : LoadState) (v : pyval) :
  nlp_model st = None →
  os_path_exists w marker = true →
  request_text json_loads event = Some v →
  lambda_handler json_loads json_dumps w event context st
    = (Ok (response 500
             (json_dumps (server_error_body (Exception "Model not loaded")))),
       {| nlp_model := None; model_loaded := true |},
       [OsPathExists marker;
        Print "Found existing model in /tmp";
        Print "Model loaded successfully!";
        Print "Lambda error: Model not loaded"]).
Proof.
  intros Hnone Hfound Htext.
  assert (cache_hit st = false) as Hmiss
    by (unfold cache_hit; rewrite Hnone; apply andb_false_r).
  rewrite (lambda_handler_text event context st v Htext).
  rewrite (load_model_marker_present w st Hmiss Hfound).
  rewrite predict_toxicity_cases. simpl. rewrite Hnone. reflexivity.
Qed.

(** X8.  The handler changes the globals through [load_model] and in no
    other way: they end as [load_model] leaves them when the request yields
    a text, and as they were when it does not; in that case the answer is a
    400 or a 500 and the run made no call at all, it printed at most. *)
Theorem handler_changes_globals_only_through_load_model
    (event context : pyval) (st : LoadState) :
  final (lambda_handler json_loads json_dumps w event context st) =
    match request_text json_loads event with
    | Some _ => final (load_model w st)
    | None => st
    end ∧
  (request_text json_loads event = None →
   ∃ (status : Z) (body : string) (log : events),
     lambda_handler json_loads json_dumps w event context st
       = (Ok (response status body), st, log) ∧
     (status = 400 ∨ status = 500)%Z ∧
     Forall (λ ev, ∃ line, ev = Print line) log).
Proof.
  split; [apply lambda_handler_final | apply lambda_handler_no_text].
Qed.

(** X10.  A request in a process that holds a model: the globals are left
    alone, no call into [os], [tempfile], [boto3] or [spacy] is made,
    and the model is called once, with the request's text. *)
Theorem loaded_process_serves_without_provisioning
    (event context : pyval) (st : LoadState) (v : pyval) :
  cache_hit st = true →
  request_text json_loads event = Some v →
  let r := lambda_handler json_loads json_dumps w event context st in
  final r = st ∧
  Forall (λ ev, is_provisioning_call ev = false) (trace r) ∧
  List.filter is_model_call (trace r) = [ModelCall v].
Proof.
  intros Hhit Htext r. subst r.
  rewrite (lambda_handler_text event context st v Htext).
  rewrite (load_model_cache_hit w st Hhit).
  unfold cache_hit in Hhit. apply andb_true_iff in Hhit as [_ Hheld].
  rewrite predict_toxicity_cases. unfold server_error, final, trace.
  destruct (nlp_model st) as [nlp|]; [|discriminate].
  destruct (pipe nlp v) as [doc|e]; simpl.
  - destruct (cats doc !! "TOXIC") as [ts|], (cats doc !! "NOT_TOXIC") as [ns|];
      simpl; repeat split; repeat constructor.
  - repeat split; repeat constructor.
Qed.

(** X11.  An exception of the provisioner, or of the prediction after it,
    comes back as the 500 response whose [error] is its message, and is the
    last line printed. *)
Theorem handler_passes_the_error_on
    (event context : pyval) (st : LoadState) (v : pyval) (e : exn) :
  request_text json_loads event = Some v →
  (outcome (load_model w st) = Raise e ∨
   ∃ handle, outcome (load_model w st) = Ok handle ∧
             outcome (predict_toxicity v (final (load_model w st))) = Raise e) →
  let r := lambda_handler json_loads json_dumps w event context st in
  outcome r = Ok (response 500 (json_dumps (server_error_body e))) ∧
  py_getitem (server_error_body e) "error" = Ok (PStr (str_exn e)) ∧
  last (trace r) = Some (Print ("Lambda error: " +:+ str_exn e)).
Proof.
  intros Htext Hfail r. subst r.
  rewrite (lambda_handler_text event context st v Htext).
  unfold server_error, outcome, final, trace in *.
  destruct (load_model w st) as [[[handle|e1] st1] t1]; simpl in *.
  - destruct Hfail as [Hfail | (handle' & _ & Hfail)]; [discriminate|].
    destruct (predict_toxicity v st1) as [[[result|e2] st2] t2]; simpl in *;
      [discriminate|].
    injection Hfail as ->. repeat split. apply last_snoc.
  - destruct Hfail as [Hfail | (handle' & Hfail & _)]; [|discriminate].
    injection Hfail as ->. repeat split. apply last_snoc.
Qed.

(** X12.  A 200 response always carries a full prediction: the request
    yielded a text, a model is held after provisioning, it scored that text
    under both labels, and the body is the dump of the prediction built
    from that text and those scores. *)
Theorem ok_response_carries_the_models_scores
    (event context : pyval) (st : LoadState) (body : string) :
  outcome (lambda_handler json_loads json_dumps w event context st)
    = Ok (response 200 body) →
  ∃ v nlp doc toxic_score not_toxic_score,
    request_text json_loads event = Some v ∧
    nlp_model (final (load_model w st)) = Some nlp ∧
    pipe nlp v = Ok doc ∧
    cats doc !! "TOXIC" = Some toxic_score ∧
    cats doc !! "NOT_TOXIC" = Some not_toxic_score ∧
    body = json_dumps (prediction v toxic_score not_toxic_score).
Proof.
  destruct (request_text json_loads event) as [v|] eqn:Htext.
  - rewrite (lambda_handler_text event context st v Htext).
    unfold server_error, outcome, final.
    destruct (load_model w st) as [[[handle|e] st1] t1]; simpl; [|discriminate].
    destruct (predict_toxicity v st1) as [[[result|e] st2] t2] eqn:Hrun; simpl;
      [|discriminate].
    intros [= <-].
    destruct (predict_toxicity_Ok v st1 st2 result t2 Hrun)
      as (nlp & doc & ts & ns & Hnlp & Hpipe & Hts & Hns & ->).
    exists v, nlp, doc, ts, ns. repeat split; assumption.
  - destruct (lambda_handler_no_text event context st Htext)
      as (status & body' & log & -> & [-> | ->] & _); discriminate.
Qed.

(** X13.  An envelope whose [body] entry cannot be decoded (it is no
    string, or [json.loads] raises on it) is answered 500 with the
    decoder's message; the globals are untouched and nothing is called. *)
Theorem undecodable_body_is_server_error
    (d : list (string * pyval)) (context : pyval) (st : LoadState)
    (raw : pyval) (e : exn) :
  dict_get "body" d = Some raw →
  py_json_loads json_loads raw = Raise e →
  lambda_handler json_loads json_dumps w (PDict d) context st
    = (Ok (response 500 (json_dumps (server_error_body e))), st,
       [Print ("Lambda error: " +:+ str_exn e)]).
Proof.
  intros Hraw Hloads. rewrite lambda_handler_cases.
  unfold request_body. simpl. rewrite Hraw. simpl. rewrite Hloads. reflexivity.
Qed.

(** X14.  Of a dict event the handler reads one entry and nothing else,
    the context included: [body] when there is one, even beside a [text]
    entry, and otherwise [text]. *)
Theorem handler_reads_one_entry_of_the_event
    (d : list (string * pyval)) (context context' : pyval) (st : LoadState) :
  (∀ raw, dict_get "body" d = Some raw →
     lambda_handler json_loads json_dumps w (PDict d) context st
     = lambda_handler json_loads json_dumps w (PDict [("body", raw)]) context' st) ∧
  (∀ v, dict_get "body" d = None → dict_get "text" d = Some v →
     lambda_handler json_loads json_dumps w (PDict d) context st
     = lambda_handler json_loads json_dumps w (PDict [("text", v)]) context' st).
Proof.
  split.
  - intros raw Hraw. rewrite !lambda_handler_cases.
    unfold request_body. simpl. rewrite Hraw. reflexivity.
  - intros v Hbody Htext. rewrite !lambda_handler_cases.
    unfold request_body. simpl. rewrite Hbody. simpl. rewrite Htext. reflexivity.
Qed.
End HandlerRuns.

(** X9.  In every state a process reaches by serving requests, whatever
    the requests and the worlds they meet, a held handle comes with the
    flag set. *)
Theorem served_process_keeps_handle_flagged
    (json_loads : string → result pyval) (json_dumps : pyval → string)
    (requests : list (World * pyval * pyval)) :
  handle_flagged (serve json_loads json_dumps requests initial) = true.
Proof.
  assert (∀ st, handle_flagged st = true →
                handle_flagged (serve json_loads json_dumps requests st) = true)
    as Hkeep.
  { induction requests as [|[[w event] context] requests IH]; intros st Hst;
      [exact Hst|].
    simpl. apply IH. rewrite lambda_handler_final.
    destruct (request_text json_loads event); [|exact Hst].
    apply load_model_keeps_handle_flagged. exact Hst. }
  apply Hkeep. reflexivity.
Qed.

(** ** Predictions *)

(** X15.  [predict_toxicity] raises in four cases and no other: no handle is
    held ("Model not loaded", before any call), the model raises on the
    text, its scores lack the label TOXIC, or they have it and lack
    NOT_TOXIC; a missing label is a [KeyError] naming it. *)
Theorem predict_toxicity_raises_iff (text : pyval) (st : LoadState) (e : exn) :
  outcome (predict_toxicity text st) = Raise e ↔
  (nlp_model st = None ∧ e = Exception "Model not loaded") ∨
  (∃ nlp, nlp_model st = Some nlp ∧
     (pipe nlp text = Raise e ∨
      ∃ doc, pipe nlp text = Ok doc ∧
        ((cats doc !! "TOXIC" = None ∧ e = KeyError "TOXIC") ∨
         (cats doc !! "TOXIC" ≠ None ∧ cats doc !! "NOT_TOXIC" = None ∧
          e = KeyError "NOT_TOXIC")))).
Proof.
  rewrite predict_toxicity_cases. unfold outcome. split.
  - destruct (nlp_model st) as [nlp|]; simpl;
      [|intros [= <-]; left; split; reflexivity].
    intros Hraise. right. exists nlp. split; [reflexivity|].
    destruct (pipe nlp text) as [doc|e']; simpl in Hraise;
      [|injection Hraise as <-; left; reflexivity].
    right. exists doc. split; [reflexivity|].
    destruct (cats doc !! "TOXIC") as [ts|]; simpl in Hraise;
      [|injection Hraise as <-; left; split; reflexivity].
    destruct (cats doc !! "NOT_TOXIC") as [ns|]; simpl in Hraise;
      [discriminate|].
    injection Hraise as <-. right. repeat split. discriminate.
  - intros [[Hn ->] | (nlp & Hn & [Hp | (doc & Hp & [[Ht ->] | (Ht & Hnt & ->)])])];
      rewrite Hn; simpl; try reflexivity; rewrite Hp; simpl; try reflexivity.
    + rewrite Ht. reflexivity.
    + rewrite Hnt. destruct (cats doc !! "TOXIC"); [reflexivity | congruence].
Qed.

Lemma SFcompare_le_lt_trans (x y z : SpecFloat.spec_float) :
  SpecFloat.SFleb x y = true →
  SpecFloat.SFltb y z = true →
  SpecFloat.SFleb x z = true.
Proof.
  unfold SpecFloat.SFleb, SpecFloat.SFltb.
  destruct x as [[]|[]| |[] mx ex], y as [[]|[]| |[] my ey], z as [[]|[]| |[] mz ez];
    simpl; try discriminate; try reflexivity; intros Hxy Hyz; compare_cases.
Qed.

Lemma float_leb_ltb_trans (a b c : float) :
  (a <=? b)%float = true → (b <? c)%float = true → (a <=? c)%float = true.
Proof.
  rewrite !FloatAxioms.leb_spec, FloatAxioms.ltb_spec.
  apply SFcompare_le_lt_trans.
Qed.

Lemma SFcompare_refl (x : SpecFloat.spec_float) :
  x ≠ SpecFloat.S754_nan → SpecFloat.SFcompare x x = Some Eq.
Proof.
  destruct x as [[]|[]| |[] m e]; simpl; intros Hx; try congruence;
    rewrite Z.compare_refl;
    change (Pos.compare_cont Eq m m) with (Pos.compare m m);
    rewrite Pos.compare_refl; reflexivity.
Qed.

Lemma is_nan_Prim2SF (a : float) :
  is_nan a = true → Prim2SF a = SpecFloat.S754_nan.
Proof.
  unfold is_nan. rewrite FloatAxioms.eqb_spec. unfold SpecFloat.SFeqb.
  intros Hnan.
  destruct (Prim2SF a) as [s|s| |s m e] eqn:Ha; [| |reflexivity|];
    rewrite SFcompare_refl in Hnan by discriminate; discriminate.
Qed.

(** A NaN compares false with everything, on either side. *)
Lemma nan_compares_false (a b : float) :
  is_nan a = true →
  (a <? b)%float = false ∧ (b <? a)%float = false ∧ (b <=? a)%float = false.
Proof.
  intros Hnan. apply is_nan_Prim2SF in Hnan.
  rewrite !FloatAxioms.ltb_spec, FloatAxioms.leb_spec, Hnan.
  unfold SpecFloat.SFltb, SpecFloat.SFleb.
  destruct (Prim2SF b); repeat split; reflexivity.
Qed.

(** X16.  A toxic verdict comes with a confidence of at least one half. *)
Theorem toxic_result_has_confidence_at_least_half
    (text : pyval) (st st' : LoadState) (r : pyval) (t : list event) :
  predict_toxicity text st = (Ok r, st', t) →
  py_getitem r "is_toxic" = Ok (PBool true) →
  ∃ confidence : float,
    py_getitem r "confidence" = Ok (PFloat confidence) ∧
    (0.5 <=? confidence)%float = true.
Proof.
  intros Hrun.
  destruct (predict_toxicity_Ok text st st' r t Hrun)
    as (nlp & doc & ts & ns & _ & _ & _ & _ & ->).
  simpl. intros [= Htoxic].
  exists (py_max ts ns). split; [reflexivity|].
  unfold py_max. destruct (ts <? ns)%float eqn:Hlt; [|exact Htoxic].
  exact (float_leb_ltb_trans _ _ _ Htoxic Hlt).
Qed.

(** X17.  A score that is NaN: when either score is a NaN the confidence is
    the toxic score as it is (a NaN if that one is), and the verdict is
    "not toxic" unless the toxic score is a number. *)
Theorem nan_score_leaves_toxic_score_as_confidence
    (text : pyval) (st st' : LoadState) (r : pyval) (t : list event)
    (toxic_score not_toxic_score : float) :
  predict_toxicity text st = (Ok r, st', t) →
  py_getitem r "toxic_score" = Ok (PFloat toxic_score) →
  py_getitem r "not_toxic_score" = Ok (PFloat not_toxic_score) →
  is_nan toxic_score = true ∨ is_nan not_toxic_score = true →
  py_getitem r "confidence" = Ok (PFloat toxic_score) ∧
  (py_getitem r "is_toxic" = Ok (PBool false) ∨ is_nan toxic_score = false).
Proof.
  intros Hrun.
  destruct (predict_toxicity_Ok text st st' r t Hrun)
    as (nlp & doc & ts & ns & _ & _ & _ & _ & ->).
  simpl. intros [= <-] [= <-]. unfold py_max. intros [Hnan | Hnan].
  - destruct (nan_compares_false ts ns Hnan) as (-> & _ & _).
    destruct (nan_compares_false ts 0.5%float Hnan) as (_ & _ & ->).
    split; [reflexivity | left; reflexivity].
  - destruct (nan_compares_false ns ts Hnan) as (_ & -> & _).
    split; [reflexivity|].
    destruct (is_nan ts) eqn:Hts; [|right; reflexivity].
    destruct (nan_compares_false ts 0.5%float Hts) as (_ & _ & ->).
    left. reflexivity.
Qed.

(** ** From keys to local files *)

Lemma prefix_append (p s : string) : String.prefix p (p +:+ s) = true.
Proof.
  induction p as [|c p IH]; [destruct s; reflexivity|].
  rewrite append_cons. simpl. destruct (ascii_dec c c); [exact IH | congruence].
Qed.

(** While [skip] characters are still to be dropped, they are dropped
    unseen. *)
Lemma remove_all_from_skip (pat x s : string) :
  remove_all_from pat (x +:+ s) (String.length x) = remove_all_from pat s 0.
Proof.
  induction x as [|c x IH]; [destruct s; reflexivity|].
  rewrite append_cons. simpl. exact IH.
Qed.

(** [(pat + s).replace(pat, '') = s.replace(pat, '')] *)
Lemma str_remove_leading (pat s : string) :
  pat ≠ "" → str_remove (pat +:+ s) pat = str_remove s pat.
Proof.
  destruct pat as [|c pat]; [congruence|]. intros _.
  unfold str_remove.
  pose proof (prefix_append (String c pat) s) as Hpre.
  rewrite append_cons in *. simpl remove_all_from.
  change (if ascii_dec c c then String.prefix pat (pat +:+ s) else false)
    with (String.prefix (String c pat) (String c (pat +:+ s))).
  rewrite Hpre. simpl String.length. rewrite Nat.sub_0_r.
  apply remove_all_from_skip.
Qed.

(** [s.replace(pat, '') = s] when [pat] does not occur in [s]. *)
Lemma str_remove_absent (pat s : string) :
  str_contains pat s = false → str_remove s pat = s.
Proof.
  unfold str_remove. induction s as [|c s IH]; [reflexivity|].
  simpl str_contains. intros Habsent.
  apply orb_false_iff in Habsent as [Hpre Hrest].
  simpl remove_all_from. rewrite Hpre. rewrite (IH Hrest). reflexivity.
Qed.

Lemma endswith_cons (c : ascii) (s : string) :
  s ≠ "" → endswith (String c s) "/" = endswith s "/".
Proof.
  destruct s as [|c' s]; [congruence|]. intros _.
  unfold endswith. simpl String.length.
  change (1 <=? S (S (String.length s)))%nat with true.
  change (1 <=? S (String.length s))%nat with true. cbv iota.
  replace (S (S (String.length s)) - 1)%nat with (S (String.length s)) by lia.
  replace (S (String.length s) - 1)%nat with (String.length s) by lia.
  reflexivity.
Qed.

Lemma endswith_append (x y : string) :
  y ≠ "" → endswith (x +:+ y) "/" = endswith y "/".
Proof.
  intros Hy. induction x as [|c x IH]; [reflexivity|].
  rewrite append_cons, endswith_cons; [exact IH|].
  destruct x; [exact Hy | rewrite append_cons; discriminate].
Qed.

(** The download directory is never empty and never ends in a slash. *)
Lemma download_dir_shape (temp_dir : string) :
  download_dir temp_dir ≠ "" ∧ endswith (download_dir temp_dir) "/" = false.
Proof.
  unfold download_dir, os_path_join.
  change (startswith "toxic_chat_model_full" "/") with false. cbv iota.
  destruct (String.eqb temp_dir "" || endswith temp_dir "/"); split.
  - destruct temp_dir; [|rewrite append_cons]; discriminate.
  - rewrite endswith_append by discriminate. reflexivity.
  - destruct temp_dir; [|rewrite append_cons]; discriminate.
  - rewrite endswith_append by discriminate. reflexivity.
Qed.

(** X18.  An object under the prefix lands at the same relative path under
    the download directory: for a remainder that is relative and does not
    itself contain the prefix, the local file is the download directory,
    a slash, and the remainder. *)
Theorem object_is_mirrored_under_download_dir (temp_dir rel : string) :
  str_contains s3_prefix rel = false →
  startswith rel "/" = false →
  local_file_path (download_dir temp_dir) (s3_prefix +:+ rel)
    = download_dir temp_dir +:+ "/" +:+ rel.
Proof.
  intros Habsent Hrel. unfold local_file_path.
  rewrite str_remove_leading by discriminate.
  rewrite (str_remove_absent _ _ Habsent).
  destruct (download_dir_shape temp_dir) as [Hne Hend].
  unfold os_path_join. rewrite Hrel, Hend.
  apply String.eqb_neq in Hne. rewrite Hne. reflexivity.
Qed.

(** X19.  A key with a second slash right after the prefix is written
    outside the download directory: its remainder is an absolute path, and
    [os.path.join] returns it as it is, whatever the directory. *)
Theorem absolute_remainder_leaves_download_dir (model_path rel : string) :
  str_contains s3_prefix rel = false →
  local_file_path model_path (s3_prefix +:+ "/" +:+ rel) = "/" +:+ rel.
Proof.
  intros Habsent. unfold local_file_path.
  rewrite str_remove_leading by discriminate.
  rewrite str_remove_absent
    by (change ("/" +:+ rel) with (String "/" rel); simpl; exact Habsent).
  change ("/" +:+ rel) with (String "/" rel).
  unfold os_path_join, startswith. simpl. destruct rel; reflexivity.
Qed.

(** X20.  Every occurrence of the prefix is removed from a key, not only
    the leading one: a key and the same key with the prefix repeated are
    different objects that share one local file. *)
Theorem repeated_prefix_shares_local_file (model_path rel : string) :
  local_file_path model_path (s3_prefix +:+ s3_prefix +:+ rel)
    = local_file_path model_path (s3_prefix +:+ rel) ∧
  s3_prefix +:+ s3_prefix +:+ rel ≠ s3_prefix +:+ rel.
Proof.
  split.
  - unfold local_file_path. rewrite !str_remove_leading by discriminate.
    reflexivity.
  - intros Heq. apply (f_equal String.length) in Heq.
    rewrite !append_length in Heq. simpl in Heq. lia.
Qed.

(** ** The further properties on the sample worlds *)

(** X1 on a cold start with a reachable bucket. *)
Lemma model_is_loaded_only_after_complete_download_witness :
  ∃ (temp_dir : string) (keys : list string),
    tempfile_mkdtemp cold_world = Ok temp_dir ∧
    "/tmp/tmpk3x9_q2a/toxic_chat_model_full" = download_dir temp_dir ∧
    list_objects_v2 cold_world s3_bucket s3_prefix = Ok (Some keys) ∧
    Forall (object_fetched cold_world (download_dir temp_dir)) keys ∧
    downloaded_keys (trace (load_model_from_s3 cold_world initial))
      = List.filter is_file_key keys ∧
    loaded_paths (trace (load_model_from_s3 cold_world initial))
      = ["/tmp/tmpk3x9_q2a/toxic_chat_model_full"].
Proof.
  apply (model_is_loaded_only_after_complete_download cold_world initial
           "/tmp/tmpk3x9_q2a/toxic_chat_model_full").
  vm_compute. constructor.
Defined.

(** X2 where the third object of four cannot be read. *)
Lemma failed_download_ends_the_fetch_witness :
  let r := load_model_from_s3 flaky_world initial in
  outcome r = Raise (ExternalError "ClientError" "Access Denied") ∧
  downloaded_keys (trace r)
    = (List.filter is_file_key
         ["toxic_chat_model_full/"; "toxic_chat_model_full/config.cfg"]
       ++ ["toxic_chat_model_full/textcat/model"])%list ∧
  loaded_paths (trace r) = [] ∧
  last (trace r) = Some (Print ("Error loading model: " +:+
                                str_exn (ExternalError "ClientError" "Access Denied"))).
Proof.
  apply (failed_download_ends_the_fetch flaky_world initial "/tmp/tmpk3x9_q2a"
           ["toxic_chat_model_full/"; "toxic_chat_model_full/config.cfg"]
           "toxic_chat_model_full/textcat/model"
           ["toxic_chat_model_full/vocab/strings.json"]
           (ExternalError "ClientError" "Access Denied")).
  - repeat split; reflexivity.
  - reflexivity.
  - constructor; [left; reflexivity|].
    constructor; [right; split; reflexivity | constructor].
  - reflexivity.
  - reflexivity.
  - reflexivity.
Defined.

(** X3 where the prefix holds its folder entry only. *)
Lemma listing_without_files_still_loads_witness :
  let d := download_dir "/tmp/tmpk3x9_q2a" in
  let r := load_model_from_s3 folders_world initial in
  outcome r = spacy_load folders_world d ∧
  final r = initial ∧
  ∃ log, trace r = ([Boto3Client; Mkdtemp; OsMakedirs d;
                     ListObjectsV2 s3_bucket s3_prefix; SpacyLoad d] ++ log)%list ∧
         downloaded_keys (trace r) = [] ∧
         (log = [] ∨ ∃ e, spacy_load folders_world d = Raise e ∧
                          log = [Print ("Error loading model: " +:+ str_exn e)]).
Proof.
  apply (listing_without_files_still_loads folders_world initial
           "/tmp/tmpk3x9_q2a" ["toxic_chat_model_full/"]).
  - repeat split; reflexivity.
  - reflexivity.
  - constructor; [reflexivity | constructor].
Defined.

(** X4 with the bucket unreachable. *)
Lemma load_model_logs_what_it_raises_witness :
  last (trace (load_model offline_world initial))
    = Some (Print ("Error loading model: " +:+
                   str_exn (ExternalError "EndpointConnectionError" "unreachable"))).
Proof.
  apply (load_model_logs_what_it_raises offline_world initial
           (ExternalError "EndpointConnectionError" "unreachable")).
  reflexivity.
Defined.

(** X7 in a fresh process that finds the marker file. *)
Lemma request_on_warm_start_without_handle_fails_witness :
  lambda_handler sample_loads sample_dumps warm_world
    (PDict [("text", PStr "hello")]) PNone initial
    = (Ok (response 500
             (sample_dumps (server_error_body (Exception "Model not loaded")))),
       {| nlp_model := None; model_loaded := true |},
       [OsPathExists marker;
        Print "Found existing model in /tmp";
        Print "Model loaded successfully!";
        Print "Lambda error: Model not loaded"]).
Proof.
  apply (request_on_warm_start_without_handle_fails sample_loads sample_dumps
           warm_world (PDict [("text", PStr "hello")]) PNone initial (PStr "hello"));
    reflexivity.
Defined.

(** X10 in a loaded process whose bucket has become unreachable. *)
Lemma loaded_process_serves_without_provisioning_witness :
  let r := lambda_handler sample_loads sample_dumps offline_world
             (PDict [("text", PStr "hello")]) PNone loaded_state in
  final r = loaded_state ∧
  Forall (λ ev, is_provisioning_call ev = false) (trace r) ∧
  List.filter is_model_call (trace r) = [ModelCall (PStr "hello")].
Proof.
  apply (loaded_process_serves_without_provisioning sample_loads sample_dumps
           offline_world (PDict [("text", PStr "hello")]) PNone loaded_state
           (PStr "hello")); reflexivity.
Defined.

(** X11 on a cold start with the bucket unreachable. *)
Lemma handler_passes_the_error_on_witness :
  let e := ExternalError "EndpointConnectionError" "unreachable" in
  let r := lambda_handler sample_loads sample_dumps offline_world
             (PDict [("text", PStr "hello")]) PNone initial in
  outcome r = Ok (response 500 (sample_dumps (server_error_body e))) ∧
  py_getitem (server_error_body e) "error" = Ok (PStr (str_exn e)) ∧
  last (trace r) = Some (Print ("Lambda error: " +:+ str_exn e)).
Proof.
  apply (handler_passes_the_error_on sample_loads sample_dumps offline_world
           (PDict [("text", PStr "hello")]) PNone initial (PStr "hello")
           (ExternalError "EndpointConnectionError" "unreachable")).
  - reflexivity.
  - left. reflexivity.
Defined.

(** X12 on a cold start with a reachable bucket. *)
Lemma ok_response_carries_the_models_scores_witness :
  ∃ v nlp doc toxic_score not_toxic_score,
    request_text sample_loads (PDict [("text", PStr "hello")]) = Some v ∧
    nlp_model (final (load_model cold_world initial)) = Some nlp ∧
    pipe nlp v = Ok doc ∧
    cats doc !! "TOXIC" = Some toxic_score ∧
    cats doc !! "NOT_TOXIC" = Some not_toxic_score ∧
    sample_dumps (prediction (PStr "hello") 0.875 0.125)
      = sample_dumps (prediction v toxic_score not_toxic_score).
Proof.
  apply (ok_response_carries_the_models_scores sample_loads sample_dumps
           cold_world (PDict [("text", PStr "hello")]) PNone initial
           (sample_dumps (prediction (PStr "hello") 0.875 0.125))).
  vm_compute. reflexivity.
Defined.

(** X13 for an envelope whose body is no JSON document. *)
Lemma undecodable_body_is_server_error_witness :
  lambda_handler sample_loads sample_dumps cold_world
    (PDict [("body", PStr "not json")]) PNone initial
    = (Ok (response 500
             (sample_dumps (server_error_body
                (ExternalError "JSONDecodeError" "Expecting value")))),
       initial,
       [Print ("Lambda error: " +:+
               str_exn (ExternalError "JSONDecodeError" "Expecting value"))]).
Proof.
  apply (undecodable_body_is_server_error sample_loads sample_dumps cold_world
           [("body", PStr "not json")] PNone initial (PStr "not json")
           (ExternalError "JSONDecodeError" "Expecting value")); reflexivity.
Defined.

(** X16 for a model that scores 0.875 / 0.125. *)
Lemma toxic_result_has_confidence_at_least_half_witness :
  ∃ confidence : float,
    py_getitem (prediction (PStr "hello") 0.875 0.125) "confidence"
      = Ok (PFloat confidence) ∧
    (0.5 <=? confidence)%float = true.
Proof.
  apply (toxic_result_has_confidence_at_least_half (PStr "hello")
           loaded_state loaded_state
           (prediction (PStr "hello") 0.875 0.125) [ModelCall (PStr "hello")]).
  - vm_compute. reflexivity.
  - vm_compute. reflexivity.
Defined.

(** X17 for a model that scores NaN / 0.25. *)
Lemma nan_score_leaves_toxic_score_as_confidence_witness :
  py_getitem (prediction (PStr "hello") nan 0.25) "confidence" = Ok (PFloat nan) ∧
  (py_getitem (prediction (PStr "hello") nan 0.25) "is_toxic" = Ok (PBool false) ∨
   is_nan nan = false).
Proof.
  apply (nan_score_leaves_toxic_score_as_confidence (PStr "hello")
           nan_state nan_state
           (prediction (PStr "hello") nan 0.25) [ModelCall (PStr "hello")]
           nan 0.25%float).
  - vm_compute. reflexivity.
  - reflexivity.
  - reflexivity.
  - left. reflexivity.
Defined.

(** X18 for one object of the model. *)
Lemma object_is_mirrored_under_download_dir_witness :
  local_file_path (download_dir "/tmp/tmpk3x9_q2a")
    (s3_prefix +:+ "textcat/model")
    = download_dir "/tmp/tmpk3x9_q2a" +:+ "/" +:+ "textcat/model".
Proof.
  apply (object_is_mirrored_under_download_dir "/tmp/tmpk3x9_q2a" "textcat/model");
    reflexivity.
Defined.

(** X19 for a key with a doubled slash. *)
Lemma absolute_remainder_leaves_download_dir_witness :
  local_file_path (download_dir "/tmp/tmpk3x9_q2a")
    (s3_prefix +:+ "/" +:+ "var/task/model")
    = "/" +:+ "var/task/model".
Proof.
  apply (absolute_remainder_leaves_download_dir
           (download_dir "/tmp/tmpk3x9_q2a") "var/task/model").
  reflexivity.
Defined.
